(** * AppMetrica Logs API client: a shallow embedding of
      [appmetrica_logs_api/client.py] and the properties of its
      request assembly and of its polling loop. *)

From Stdlib Require Import ZArith Zbitwise String Ascii List Lia.
From stdpp Require Import gmap strings list.

Local Open Scope Z_scope.

(** ** Python values used by the client *)

(** [str.join]: [sep.join(parts)]. *)
Fixpoint join (sep : string) (parts : list string) : string :=
  match parts with
  | [] => ""
  | [p] => p
  | p :: rest => p +:+ sep +:+ join sep rest
  end.

(** Truth value of a [str]: the empty string is falsy. *)
Definition truthy (s : string) : bool :=
  match s with
  | EmptyString => false
  | String _ _ => true
  end.

(** [dict.pop(key, default)] returns the value and the dict without the key. *)
Definition pop (key : string) (d : gmap string string)
  : option string * gmap string string :=
  (d !! key, delete key d).

(** ** HTTP layer as seen by the client *)

Record response := { status_code : Z; text : string }.

(** What [requests.request] raises when no HTTP status is obtained:
    [requests.exceptions.ConnectionError] (or a subclass of it), or an
    exception of another class, [ChunkedEncodingError] or [ReadTimeout]
    say, given by its class name. *)
Inductive transport_failure :=
| ConnectionError (reason : string)
| OtherRequestError (class reason : string).

(** What one call of [requests.request] yields. *)
Inductive reply :=
| Answered (r : response)
| Failed (f : transport_failure).

Record http_call := {
  call_method : string;
  call_url : string;
  call_params : gmap string string;
  call_headers : gmap string string
}.

(** Observable effects, in the order they happen. *)
Inductive event :=
| Requested (c : http_call)
| Slept (seconds : Z).

(** ** Exceptions *)

(** The positional argument an exception is constructed with: a message,
    or the class object [ConnectionError] itself. *)
Inductive exc_arg :=
| ArgText (msg : string)
| ArgConnectionErrorClass.

(** [context] is Python's implicit [__context__]: the exception that was
    being handled when this one was raised. [Uncaught f] is an exception of
    [requests.request] that no handler of the client catches. *)
Inductive exception :=
| AppmetricaClientError (arg : exc_arg) (context : option transport_failure)
| AppmetricaApiError (detail : string)
| JSONDecodeError (doc : string)
| Uncaught (f : transport_failure).

(** Result of running a piece of the client against a scripted server.
    [Polling] means the script ran out while the loop was still waiting. *)
Inductive run (A : Type) :=
| Returned (a : A)
| Raised (e : exception)
| Polling.
Arguments Returned {A} a.
Arguments Raised {A} e.
Arguments Polling {A}.

(** ** The client object *)

Record AppMetrica := {
  app_token : string;
  _api_endpoint : string
}.

Definition AppMetrica_init (token : string) : AppMetrica :=
  {| app_token := token;
     _api_endpoint := "https://api.appmetrica.yandex.ru/logs/v1/export" |}.

(** ** Request executor: [AppMetrica._make_request] *)

(** [base_delay * 2 ^ retry_count] as Python evaluates it: [*] binds
    tighter than [^], and [^] is bitwise exclusive or. *)
Definition sleep_interval (base_delay retry_count : Z) : Z :=
  Z.lxor (base_delay * 2) retry_count.

(** The [while True] loop; the scripted [server] gives the reply to each
    successive GET. *)
Fixpoint request_loop (c : http_call) (base_delay retry_count : Z)
    (server : list reply) : list event * run response :=
  match server with
  | [] => ([], Polling)
  | Failed f :: _ =>
      match f with
      | ConnectionError _ =>
          ([Requested c],
           Raised (AppmetricaClientError ArgConnectionErrorClass (Some f)))
      | OtherRequestError _ _ => ([Requested c], Raised (Uncaught f))
      end
  | Answered r :: server' =>
      if status_code r =? 200 then ([Requested c], Returned r)
      else if (status_code r =? 201) || (status_code r =? 202) then
        let retry_count := retry_count + 1 in
        let '(evs, res) := request_loop c base_delay retry_count server' in
        (Requested c :: Slept (sleep_interval base_delay retry_count) :: evs, res)
      else ([Requested c], Raised (AppmetricaApiError (text r)))
  end.

Definition _make_request (self : AppMetrica) (url : string)
    (params headers : gmap string string) (server : list reply)
  : list event * run response :=
  let retry_count := 0 in
  let base_delay := 10 in
  let headers := <["Authorization" := "OAuth " +:+ app_token self]> headers in
  request_loop {| call_method := "GET"; call_url := url;
                  call_params := params; call_headers := headers |}
               base_delay retry_count server.

(** Projections of a trace. *)
Definition sleeps (evs : list event) : list Z :=
  omap (fun e => match e with Slept s => Some s | Requested _ => None end) evs.

Definition requests (evs : list event) : list http_call :=
  omap (fun e => match e with Requested c => Some c | Slept _ => None end) evs.

(** ** [datetime] and [strftime] *)

(** The fields [strftime] reads here. *)
Record datetime := {
  year : nat; month : nat; day : nat;
  hour : nat; minute : nat; second : nat
}.

(** The ranges the constructor of [datetime] enforces. *)
Definition datetime_ok (dt : datetime) : Prop :=
  1 <= Z.of_nat (year dt) <= 9999
  /\ (1 <= month dt <= 12 /\ 1 <= day dt <= 31
      /\ hour dt < 24 /\ minute dt < 60 /\ second dt < 60)%nat.

Definition digit (n : nat) : ascii := ascii_of_nat (48 + n mod 10)%nat.

(** The last [width] decimal digits of [n], zero padded on the left. *)
Fixpoint zero_pad (width n : nat) : string :=
  match width with
  | O => ""
  | S w => zero_pad w (n / 10)%nat +:+ String (digit n) ""
  end.

(** The decimal digits of [n], most significant first, added in front of
    [acc]. *)
Fixpoint decimal_onto (fuel n : nat) (acc : string) : string :=
  match fuel with
  | O => acc
  | S fuel' =>
      let acc := String (digit n) acc in
      if (n <? 10)%nat then acc else decimal_onto fuel' (n / 10)%nat acc
  end.

(** [str(n)] for a natural number. *)
Definition decimal (n : nat) : string := decimal_onto (S n) n "".

(** At least two digits: a leading zero below ten. *)
Definition pad2 (n : nat) : string :=
  if (n <? 10)%nat then "0" +:+ decimal n else decimal n.

(** The directives the client uses, as CPython renders them through the C
    library on Linux: [%Y] is the year in decimal with no padding (the year
    999 gives "999"), the others are padded to two digits; any other
    directive is copied as it is. *)
Definition directive (dt : datetime) (d : ascii) : string :=
  if Ascii.eqb d "Y" then decimal (year dt)
  else if Ascii.eqb d "m" then pad2 (month dt)
  else if Ascii.eqb d "d" then pad2 (day dt)
  else if Ascii.eqb d "H" then pad2 (hour dt)
  else if Ascii.eqb d "M" then pad2 (minute dt)
  else if Ascii.eqb d "S" then pad2 (second dt)
  else String "%" (String d "").

Fixpoint strftime (dt : datetime) (fmt : string) : string :=
  match fmt with
  | EmptyString => ""
  | String c rest =>
      match rest with
      | String d rest' =>
          if Ascii.eqb c "%" then directive dt d +:+ strftime dt rest'
          else String c (strftime dt rest)
      | EmptyString => String c ""
      end
  end.

(** ** Resource schema registry *)

(** Modelled from the spec: the constants of [appmetrica_logs_api.constants]
    ([APIResources.EVENTS], [APIResources.INSTALLATIONS]) are the resource
    names "events" and "installations". *)
Definition EVENTS : string := "events".
Definition INSTALLATIONS : string := "installations".

(** Python binds these keywords to the named parameters of [export], so
    [**kwargs] never holds them. *)
Definition named_parameters : list string :=
  ["resource"; "application_id"; "fields"; "date_from"; "date_to"].

Definition keyword_only (kwargs : gmap string string) : Prop :=
  Forall (fun k => kwargs !! k = None) named_parameters.

(** Sample values for the concrete runs below. *)
Definition sample_events_fields : list string :=
  ["event_name"; "event_timestamp"].
Definition sample_installations_fields : list string :=
  ["install_datetime"].
Definition sample_date : datetime :=
  {| year := 2024; month := 1; day := 5; hour := 3; minute := 4; second := 9 |}.
Definition sample_until : datetime :=
  {| year := 2024; month := 12; day := 31; hour := 23; minute := 59; second := 59 |}.
Definition sample_early : datetime :=
  {| year := 999; month := 1; day := 5; hour := 3; minute := 4; second := 9 |}.
Definition ok (body : string) : reply :=
  Answered {| status_code := 200; text := body |}.
Definition preparing : reply :=
  Answered {| status_code := 202; text := "" |}.

Section Client.

(** [EventsSchema.model_fields.keys()] and
    [InstallationsSchema.model_fields.keys()], in declaration order; the
    schema modules are data and are left open here. *)
Variables EventsSchema InstallationsSchema : list string.

(** The document type and the parser behind [response.json()]. *)
Variable json : Type.
Variable json_loads : string -> option json.

Definition RESOURCES_SCHEMA : gmap string (list string) :=
  {[ EVENTS := EventsSchema; INSTALLATIONS := InstallationsSchema ]}.

(** What [export] hands back: [response.text] or [response.json()]. *)
Inductive payload :=
| Text (body : string)
| Json (doc : json).

(** Lines 75-78: the field list, gated by the registry. *)
Definition resolve_fields (resource : string) (fields : option (list string))
  : exception + string :=
  match RESOURCES_SCHEMA !! resource with
  | Some model_fields =>
      inr (match fields with
           | None => join "," model_fields
           | Some fields => join "," fields
           end)
  | None =>
      inl (AppmetricaClientError
             (ArgText ("Ресурс " +:+ resource +:+ " не доступен для экспорта."))
             None)
  end.

(** Lines 80-86: the optional headers, taken one by one; the key leaves
    [kwargs] whether or not a header is set. *)
Definition optional_header (name key : string)
    (headers kwargs : gmap string string)
  : gmap string string * gmap string string :=
  let '(value, kwargs) := pop key kwargs in
  match value with
  | Some v => if truthy v then (<[name := v]> headers, kwargs)
              else (headers, kwargs)
  | None => (headers, kwargs)
  end.

Definition optional_headers (headers kwargs : gmap string string)
  : gmap string string * gmap string string :=
  let '(headers, kwargs) :=
    optional_header "Cache-Control" "cache_control" headers kwargs in
  optional_header "Accept-Encoding" "accept_encoding" headers kwargs.

(** Lines 94-100: the date range rule. *)
Definition date_range (resource : string) (date_from date_to : option datetime)
    (dt_format : string) (params : gmap string string)
  : exception + gmap string string :=
  if bool_decide (resource ∉ ["profiles"; "push_tokens"]) then
    match date_from, date_to with
    | Some date_from, Some date_to =>
        inr (<["date_until" := strftime date_to dt_format]>
               (<["date_since" := strftime date_from dt_format]> params))
    | _, _ =>
        inl (AppmetricaClientError
               (ArgText ("Для ресурса " +:+ resource
                         +:+ " требуется указать диапазон дат - "
                         +:+ "параметры date_from и date_to"))
               None)
    end
  else inr params.

(** Lines 104-107: decoding of the response. *)
Definition decode (export_format : string) (r : response) : run payload :=
  if String.eqb export_format "csv" then Returned (Text (text r))
  else match json_loads (text r) with
       | Some doc => Returned (Json doc)
       | None => Raised (JSONDecodeError (text r))
       end.

(** What lines 69-100 of [export] hand to the executor. *)
Record assembled := {
  export_format : string;
  api_url : string;
  params : gmap string string;
  headers : gmap string string
}.

(** [AppMetrica.export], lines 69-100: request assembly. *)
Definition assemble (self : AppMetrica) (resource application_id : string)
    (fields : option (list string)) (date_from date_to : option datetime)
    (kwargs : gmap string string) : exception + assembled :=
  let dt_format := "%Y-%m-%d %H:%M:%S" in
  let '(export_format, kwargs) := pop "export_format" kwargs in
  let export_format := default "csv" export_format in
  let api_url :=
    join "/" [_api_endpoint self; resource] +:+ "." +:+ export_format in
  match resolve_fields resource fields with
  | inl e => inl e
  | inr fields =>
      let headers : gmap string string := ∅ in
      let '(headers, kwargs) := optional_headers headers kwargs in
      let params :=
        kwargs ∪ {[ "application_id" := application_id; "fields" := fields ]} in
      match date_range resource date_from date_to dt_format params with
      | inl e => inl e
      | inr params =>
          inr {| export_format := export_format; api_url := api_url;
                 params := params; headers := headers |}
      end
  end.

(** [AppMetrica.export]: assembly, then lines 102-107. *)
Definition export (self : AppMetrica) (resource application_id : string)
    (fields : option (list string)) (date_from date_to : option datetime)
    (kwargs : gmap string string) (server : list reply)
  : list event * run payload :=
  match assemble self resource application_id fields date_from date_to kwargs with
  | inl e => ([], Raised e)
  | inr a =>
      let '(evs, res) :=
        _make_request self (api_url a) (params a) (headers a) server in
      (evs, match res with
            | Returned response => decode (export_format a) response
            | Raised e => Raised e
            | Polling => Polling
            end)
  end.

End Client.

Arguments Text {json} body.
Arguments Json {json} doc.

Definition sample_client := AppMetrica_init "t0k3n".
(** A stand-in for the JSON parser: only the empty body fails to parse. *)
Definition sample_loads (body : string) : option string :=
  if truthy body then Some body else None.
Definition sample_registry :=
  RESOURCES_SCHEMA sample_events_fields sample_installations_fields.
Definition sample_export :=
  export sample_events_fields sample_installations_fields string sample_loads
    sample_client.
Definition forbidden : reply :=
  Answered {| status_code := 403; text := "forbidden" |}.
Definition refused : reply := Failed (ConnectionError "connection refused").
Definition broken_body : reply :=
  Failed (OtherRequestError "ChunkedEncodingError" "connection broken").

Definition sample_csv : string := "a,b" +:+ String (ascii_of_nat 10) "1,2".

(** ** Vocabulary for the statements *)

(** A reply that keeps the loop waiting: status 201 or 202. *)
Definition still_preparing (x : reply) : bool :=
  match x with
  | Answered r => (status_code r =? 201) || (status_code r =? 202)
  | Failed _ => false
  end.

(** The calls a run put on the wire. *)
Definition dispatched {A} (x : list event * run A) : list http_call :=
  requests x.1.

(** The trace of [k] rounds of waiting that start at retry counter [n]. *)
Fixpoint waiting_events (c : http_call) (base_delay n : Z) (k : nat)
  : list event :=
  match k with
  | O => []
  | S k' => Requested c :: Slept (sleep_interval base_delay (n + 1))
              :: waiting_events c base_delay (n + 1) k'
  end.

(** Strictly increasing lists of delays. *)
Fixpoint increasing (l : list Z) : bool :=
  match l with
  | x :: (y :: _) as rest => (x <? y) && increasing rest
  | _ => true
  end.

(** The header a supplied option turns into: none for a falsy value. *)
Definition header_of (value : option string) : option string :=
  match value with
  | Some v => if truthy v then Some v else None
  | None => None
  end.

(** The layout "yyyy-MM-dd HH:mm:ss", field by field. *)
Definition yyyy_MM_dd_HH_mm_ss (dt : datetime) : string :=
  zero_pad 4 (year dt) +:+ "-" +:+ zero_pad 2 (month dt) +:+ "-"
    +:+ zero_pad 2 (day dt) +:+ " " +:+ zero_pad 2 (hour dt) +:+ ":"
    +:+ zero_pad 2 (minute dt) +:+ ":" +:+ zero_pad 2 (second dt).

(** The text of the two client errors of [export]. *)
Definition not_exportable (resource : string) : exception :=
  AppmetricaClientError
    (ArgText ("Ресурс " +:+ resource +:+ " не доступен для экспорта.")) None.

Definition date_range_required (resource : string) : exception :=
  AppmetricaClientError
    (ArgText ("Для ресурса " +:+ resource
              +:+ " требуется указать диапазон дат - параметры date_from и date_to"))
    None.

(** The call the executor sends for an assembled request. *)
Definition wire_call (self : AppMetrica) (a : assembled) : http_call :=
  {| call_method := "GET"; call_url := api_url a; call_params := params a;
     call_headers :=
       <["Authorization" := "OAuth " +:+ app_token self]> (headers a) |}.

(** The field list a call asks for. *)
Definition requested_fields (model_fields : list string)
    (fields : option (list string)) : string :=
  match fields with
  | None => join "," model_fields
  | Some fields => join "," fields
  end.

(** ** The polling loop *)

Lemma request_loop_waiting c b n waiting tail :
  Forall (fun x => still_preparing x = true) waiting ->
  request_loop c b n (waiting ++ tail) =
    ((waiting_events c b n (length waiting)
       ++ (request_loop c b (n + Z.of_nat (length waiting)) tail).1),
     (request_loop c b (n + Z.of_nat (length waiting)) tail).2).
Proof.
  intros Hw. revert n.
  induction Hw as [|x waiting Hx _ IH]; intros n.
  - cbn [app length waiting_events Z.of_nat]. rewrite Z.add_0_r.
    by destruct (request_loop c b n tail).
  - destruct x as [r|f]; [|discriminate Hx].
    cbn [still_preparing] in Hx.
    cbn [app request_loop length waiting_events].
    destruct (status_code r =? 200) eqn:E200.
    { apply Z.eqb_eq in E200. rewrite E200 in Hx. discriminate Hx. }
    rewrite Hx, (IH (n + 1)).
    replace (n + 1 + Z.of_nat (length waiting))
      with (n + Z.of_nat (S (length waiting))) by lia.
    reflexivity.
Qed.

Lemma requests_app evs1 evs2 :
  requests (evs1 ++ evs2) = (requests evs1 ++ requests evs2).
Proof. apply omap_app. Qed.

Lemma sleeps_app evs1 evs2 :
  sleeps (evs1 ++ evs2) = (sleeps evs1 ++ sleeps evs2).
Proof. apply omap_app. Qed.

Lemma requests_waiting c b n k :
  requests (waiting_events c b n k) = replicate k c.
Proof.
  revert n. induction k as [|k IH]; intros n; [done|].
  cbn [waiting_events replicate]. change (requests (Requested c :: Slept ?s :: ?l))
    with (c :: requests l). by rewrite IH.
Qed.

Lemma sleeps_waiting_length c b n k :
  length (sleeps (waiting_events c b n k)) = k.
Proof.
  revert n. induction k as [|k IH]; intros n; [done|].
  cbn [waiting_events]. change (sleeps (Requested c :: Slept ?s :: ?l))
    with (s :: sleeps l). cbn [length]. by rewrite IH.
Qed.

(** Every call the loop issues is the very same call. *)
Lemma request_loop_same_call c b n server :
  Forall (fun c' => c' = c) (requests (request_loop c b n server).1).
Proof.
  revert n. induction server as [|x server IH]; intros n; [constructor|].
  destruct x as [r|f]; cbn [request_loop].
  - destruct (status_code r =? 200); [by repeat constructor|].
    destruct ((status_code r =? 201) || (status_code r =? 202)).
    + specialize (IH (n + 1)). destruct (request_loop c b (n + 1) server).
      by constructor.
    + by repeat constructor.
  - destruct f; by repeat constructor.
Qed.

(** A non-empty script always gets at least one call. *)
Lemma request_loop_first_call c b n x server :
  head (requests (request_loop c b n (x :: server)).1) = Some c.
Proof.
  destruct x as [r|f]; cbn [request_loop]; [|by destruct f].
  destruct (status_code r =? 200); [done|].
  destruct ((status_code r =? 201) || (status_code r =? 202)); [|done].
  by destruct (request_loop c b (n + 1) server).
Qed.

(** ** Terminal states of the executor *)

(** C5: the executor is a state machine over status codes. After any
    number of 201/202 replies, a reply with status 200 ends the run with
    that response, and a reply with any status other than 200, 201, 202
    ends it with an [AppmetricaApiError] that carries the body; in both
    cases the reply is the last one asked for (one call per reply seen, one
    sleep per 201/202), so with no waiting before it the run is a single
    call and no sleep. *)
Theorem make_request_terminal_status self url params headers waiting r rest :
  Forall (fun x => still_preparing x = true) waiting ->
  let out :=
    _make_request self url params headers (waiting ++ Answered r :: rest) in
  (status_code r = 200 ->
     out.2 = Returned r
     /\ length (dispatched out) = S (length waiting)
     /\ length (sleeps out.1) = length waiting)
  /\ (status_code r <> 200 -> status_code r <> 201 -> status_code r <> 202 ->
     out.2 = Raised (AppmetricaApiError (text r))
     /\ length (dispatched out) = S (length waiting)
     /\ length (sleeps out.1) = length waiting).
Proof.
  intros Hw out. subst out. unfold _make_request, dispatched.
  rewrite (request_loop_waiting _ _ _ _ _ Hw).
  cbn [fst snd]. rewrite requests_app, sleeps_app, !length_app.
  rewrite requests_waiting, length_replicate, sleeps_waiting_length.
  cbn [request_loop]. split.
  - intros H200. rewrite H200. cbn. repeat split; lia.
  - intros N200 N201 N202.
    apply Z.eqb_neq in N200, N201, N202. rewrite N200, N201, N202.
    cbn. repeat split; lia.
Qed.

(** C6 (amended): a failure that [requests] raises as [ConnectionError],
    after any number of 201/202 replies, ends the run with an
    [AppmetricaClientError] (built from the class [ConnectionError], the
    caught failure being its context only); a failure of any other class
    is not caught and leaves the loop as it is. In both cases the failed
    call is the last one: nothing is retried. *)
Theorem make_request_connection_failure self url params headers waiting f rest :
  Forall (fun x => still_preparing x = true) waiting ->
  let out :=
    _make_request self url params headers (waiting ++ Failed f :: rest) in
  (forall reason, f = ConnectionError reason ->
     out.2 = Raised (AppmetricaClientError ArgConnectionErrorClass (Some f)))
  /\ (forall class reason, f = OtherRequestError class reason ->
       out.2 = Raised (Uncaught f))
  /\ length (dispatched out) = S (length waiting)
  /\ length (sleeps out.1) = length waiting.
Proof.
  intros Hw out. subst out. unfold _make_request, dispatched.
  rewrite (request_loop_waiting _ _ _ _ _ Hw).
  cbn [fst snd]. rewrite requests_app, sleeps_app, !length_app.
  rewrite requests_waiting, length_replicate, sleeps_waiting_length.
  split_and!.
  - by intros reason ->.
  - by intros class reason ->.
  - destruct f; cbn; lia.
  - destruct f; cbn; lia.
Qed.

(** The delays of the run 202, 202, 200: two sleeps, the second longer. *)
Example two_rounds_of_waiting :
  let out := _make_request sample_client "u" ∅ ∅ [preparing; preparing; ok "done"] in
  sleeps out.1 = [21; 22]
  /\ out.2 = Returned {| status_code := 200; text := "done" |}.
Proof. by vm_compute. Qed.

(** C3: the delay before retry [k] is [20 xor k], which is not increasing:
    the server 202, 202, 202, 202, 200 makes the client sleep 21, 22, 23 and
    then 16 seconds. *)
Theorem backoff_drops_at_fourth_retry :
  let out :=
    _make_request sample_client "u" ∅ ∅
      [preparing; preparing; preparing; preparing; ok "done"] in
  sleeps out.1 = [21; 22; 23; 16]
  /\ increasing (sleeps out.1) = false
  /\ sleep_interval 10 4 < sleep_interval 10 3
  /\ out.2 = Returned {| status_code := 200; text := "done" |}.
Proof. by vm_compute. Qed.

(** ** Request assembly *)

Lemma strftime_fields dt :
  strftime dt "%Y-%m-%d %H:%M:%S"
  = decimal (year dt) +:+ "-" +:+ pad2 (month dt) +:+ "-" +:+ pad2 (day dt)
      +:+ " " +:+ pad2 (hour dt) +:+ ":" +:+ pad2 (minute dt) +:+ ":"
      +:+ pad2 (second dt) +:+ "".
Proof. reflexivity. Qed.

Lemma decimal_four_digits n :
  1000 <= Z.of_nat n <= 9999 -> decimal n = zero_pad 4 n.
Proof.
  intros H.
  assert (Hall : forallb (fun n => String.eqb (decimal n) (zero_pad 4 n))
                   (seq (Z.to_nat 1000) (Z.to_nat 9000)) = true)
    by (vm_compute; reflexivity).
  rewrite forallb_forall in Hall. apply String.eqb_eq, Hall, in_seq. lia.
Qed.

Lemma pad2_two_digits n : (n < 100)%nat -> pad2 n = zero_pad 2 n.
Proof.
  intros H.
  assert (Hall : forallb (fun n => String.eqb (pad2 n) (zero_pad 2 n))
                   (seq 0 100) = true) by (vm_compute; reflexivity).
  rewrite forallb_forall in Hall. apply String.eqb_eq, Hall, in_seq. lia.
Qed.

Lemma append_nil_r (s : string) : s +:+ "" = s.
Proof.
  induction s as [|c s IH]; [done|].
  change (String c s +:+ "") with (String c (s +:+ "")). by rewrite IH.
Qed.

(** For a four-digit year the formatted date is the layout
    yyyy-MM-dd HH:mm:ss. *)
Lemma strftime_layout dt :
  datetime_ok dt -> 1000 <= Z.of_nat (year dt) ->
  strftime dt "%Y-%m-%d %H:%M:%S" = yyyy_MM_dd_HH_mm_ss dt.
Proof.
  intros (Hy & Hm & Hd & HH & HM & HS) H1000.
  rewrite strftime_fields, append_nil_r. unfold yyyy_MM_dd_HH_mm_ss.
  rewrite decimal_four_digits by lia.
  by rewrite !pad2_two_digits by lia.
Qed.

Lemma append_cons c (s t : string) : String c s +:+ t = String c (s +:+ t).
Proof. reflexivity. Qed.

Lemma length_append (s t : string) :
  String.length (s +:+ t) = (String.length s + String.length t)%nat.
Proof.
  induction s as [|c s IH]; [done|].
  rewrite append_cons. cbn [String.length]. by rewrite IH.
Qed.

Lemma append_assoc (s t u : string) : (s +:+ t) +:+ u = s +:+ t +:+ u.
Proof.
  induction s as [|c s IH]; [done|]. by rewrite !append_cons, IH.
Qed.

Lemma zero_pad_length w n : String.length (zero_pad w n) = w.
Proof.
  revert n. induction w as [|w IH]; intros n; [done|].
  cbn [zero_pad]. rewrite length_append, IH. cbn. lia.
Qed.

(** The formatted date always has the 19 characters of the layout. *)
Lemma layout_length dt : String.length (yyyy_MM_dd_HH_mm_ss dt) = 19%nat.
Proof.
  unfold yyyy_MM_dd_HH_mm_ss.
  repeat (rewrite length_append || rewrite zero_pad_length). reflexivity.
Qed.

Lemma optional_headers_spec (kwargs : gmap string string) :
  let out := optional_headers ∅ kwargs in
  out.1 !! "Cache-Control" = header_of (kwargs !! "cache_control")
  /\ out.1 !! "Accept-Encoding" = header_of (kwargs !! "accept_encoding")
  /\ out.1 !! "Authorization" = None
  /\ out.2 = delete "accept_encoding" (delete "cache_control" kwargs).
Proof.
  intros out. subst out.
  unfold optional_headers, optional_header, pop, header_of.
  destruct (kwargs !! "cache_control") as [v|]; [destruct (truthy v)|];
    rewrite (lookup_delete_ne kwargs "cache_control" "accept_encoding") by done;
    (destruct (kwargs !! "accept_encoding") as [w|]; [destruct (truthy w)|]);
    cbn [fst snd]; by simplify_map_eq.
Qed.

Lemma date_scoped_iff (resource : string) :
  resource ∉ ["profiles"; "push_tokens"]
  <-> resource <> "profiles" /\ resource <> "push_tokens".
Proof.
  rewrite !not_elem_of_cons. split; [tauto|].
  intros [? ?]. split_and!; [done..|]. apply not_elem_of_nil.
Qed.

Lemma date_range_exempt resource date_from date_to fmt (p : gmap string string) :
  resource = "profiles" \/ resource = "push_tokens" ->
  date_range resource date_from date_to fmt p = inr p.
Proof.
  intros H. unfold date_range. rewrite bool_decide_eq_false_2; [done|].
  rewrite date_scoped_iff. intros [? ?]. by destruct H.
Qed.

Lemma date_range_missing resource date_from date_to fmt (p : gmap string string) :
  resource <> "profiles" -> resource <> "push_tokens" ->
  date_from = None \/ date_to = None ->
  date_range resource date_from date_to fmt p = inl (date_range_required resource).
Proof.
  intros N1 N2 H. unfold date_range.
  rewrite bool_decide_eq_true_2 by by apply date_scoped_iff.
  destruct H as [-> | ->]; [|destruct date_from]; reflexivity.
Qed.

Lemma date_range_given resource a b fmt (p : gmap string string) :
  resource <> "profiles" -> resource <> "push_tokens" ->
  date_range resource (Some a) (Some b) fmt p =
    inr (<["date_until" := strftime b fmt]> (<["date_since" := strftime a fmt]> p)).
Proof.
  intros N1 N2. unfold date_range.
  by rewrite bool_decide_eq_true_2 by by apply date_scoped_iff.
Qed.

(** With both dates the rule never fails, whatever the resource. *)
Lemma date_range_total resource a b fmt (p : gmap string string) :
  exists p', date_range resource (Some a) (Some b) fmt p = inr p'.
Proof. unfold date_range. case_bool_decide; eauto. Qed.

Section ExportFacts.

Variables EventsSchema InstallationsSchema : list string.
Variable json : Type.
Variable json_loads : string -> option json.

Local Abbreviation registry := (RESOURCES_SCHEMA EventsSchema InstallationsSchema).
Local Abbreviation resolve := (resolve_fields EventsSchema InstallationsSchema).
Local Abbreviation assembly := (assemble EventsSchema InstallationsSchema).
Local Abbreviation run_export :=
  (export EventsSchema InstallationsSchema json json_loads).
Local Abbreviation decoded := (decode json json_loads).

Lemma registry_lookup :
  registry !! "events" = Some EventsSchema
  /\ registry !! "installations" = Some InstallationsSchema
  /\ forall r, r <> "events" -> r <> "installations" -> registry !! r = None.
Proof.
  unfold RESOURCES_SCHEMA, EVENTS, INSTALLATIONS.
  split_and!; [done..|]. intros r ? ?. by simplify_map_eq.
Qed.

Lemma registry_exempt_absent resource :
  resource = "profiles" \/ resource = "push_tokens" ->
  registry !! resource = None.
Proof.
  intros [-> | ->]; by apply registry_lookup.
Qed.

Lemma resolve_registered resource model_fields fields :
  registry !! resource = Some model_fields ->
  resolve resource fields = inr (requested_fields model_fields fields).
Proof. intros H. unfold resolve_fields. by rewrite H. Qed.

Lemma resolve_unregistered resource fields :
  registry !! resource = None ->
  resolve resource fields = inl (not_exportable resource).
Proof. intros H. unfold resolve_fields. by rewrite H. Qed.

Lemma assemble_unregistered self resource application_id fields
    date_from date_to kwargs :
  registry !! resource = None ->
  assembly self resource application_id fields date_from date_to kwargs
    = inl (not_exportable resource).
Proof.
  intros H. unfold assemble, pop. by rewrite (resolve_unregistered _ _ H).
Qed.

Lemma assemble_registered self resource application_id fields
    date_from date_to kwargs model_fields :
  registry !! resource = Some model_fields ->
  assembly self resource application_id fields date_from date_to kwargs =
    match
      date_range resource date_from date_to "%Y-%m-%d %H:%M:%S"
        (delete "accept_encoding"
           (delete "cache_control" (delete "export_format" kwargs))
         ∪ {[ "application_id" := application_id;
              "fields" := requested_fields model_fields fields ]})
    with
    | inl e => inl e
    | inr p =>
        inr {| export_format := default "csv" (kwargs !! "export_format");
               api_url := _api_endpoint self +:+ "/" +:+ resource +:+ "."
                            +:+ default "csv" (kwargs !! "export_format");
               params := p;
               headers :=
                 (optional_headers ∅ (delete "export_format" kwargs)).1 |}
    end.
Proof.
  intros H. unfold assemble, pop. rewrite (resolve_registered _ _ _ H).
  pose proof (optional_headers_spec (delete "export_format" kwargs)) as Hh.
  destruct (optional_headers ∅ (delete "export_format" kwargs)) as [h k].
  cbn [fst snd] in Hh. destruct Hh as (_ & _ & _ & ->).
  cbn [join fst]. by rewrite append_assoc.
Qed.

Lemma export_failed self resource application_id fields date_from date_to
    kwargs server e :
  assembly self resource application_id fields date_from date_to kwargs
    = inl e ->
  run_export self resource application_id fields date_from date_to kwargs server
    = ([], Raised e).
Proof. intros H. unfold export. by rewrite H. Qed.

Lemma export_dispatch self resource application_id fields date_from date_to
    kwargs server a :
  assembly self resource application_id fields date_from date_to kwargs
    = inr a ->
  run_export self resource application_id fields date_from date_to kwargs server
    = ((request_loop (wire_call self a) 10 0 server).1,
       match (request_loop (wire_call self a) 10 0 server).2 with
       | Returned r => decoded (export_format a) r
       | Raised e => Raised e
       | Polling => Polling
       end).
Proof.
  intros H. unfold export, _make_request. rewrite H. fold (wire_call self a).
  by destruct (request_loop (wire_call self a) 10 0 server).
Qed.

(** Whatever goes on the wire is the assembled request. *)
Lemma export_dispatched_all self resource application_id fields date_from
    date_to kwargs server :
  Forall (fun c => exists a,
            assembly self resource application_id fields date_from date_to
              kwargs = inr a /\ c = wire_call self a)
    (dispatched (run_export self resource application_id fields date_from
                   date_to kwargs server)).
Proof.
  destruct (assembly self resource application_id fields date_from date_to
              kwargs) as [e|a] eqn:E.
  - rewrite (export_failed _ _ _ _ _ _ _ _ _ E). constructor.
  - rewrite (export_dispatch _ _ _ _ _ _ _ _ _ E). unfold dispatched.
    cbn [fst]. eapply Forall_impl; [apply request_loop_same_call|].
    intros c ->. eauto.
Qed.

Lemma export_dispatched_first self resource application_id fields date_from
    date_to kwargs x server a :
  assembly self resource application_id fields date_from date_to kwargs
    = inr a ->
  head (dispatched (run_export self resource application_id fields date_from
                      date_to kwargs (x :: server)))
    = Some (wire_call self a).
Proof.
  intros E. rewrite (export_dispatch _ _ _ _ _ _ _ _ _ E). unfold dispatched.
  cbn [fst]. apply request_loop_first_call.
Qed.

(** The base parameters of a call, before the date rule. *)
Lemma base_params_lookup (kwargs : gmap string string) application_id fs :
  let p := delete "accept_encoding"
             (delete "cache_control" (delete "export_format" kwargs))
           ∪ {[ "application_id" := application_id; "fields" := fs ]} in
  p !! "export_format" = None
  /\ p !! "cache_control" = None
  /\ p !! "accept_encoding" = None
  /\ (kwargs !! "fields" = None -> p !! "fields" = Some fs).
Proof.
  intros p. subst p. split_and!.
  - apply lookup_union_None. by simplify_map_eq.
  - apply lookup_union_None. by simplify_map_eq.
  - apply lookup_union_None. by simplify_map_eq.
  - intros H. rewrite lookup_union_r; by simplify_map_eq.
Qed.

Lemma date_range_preserves resource date_from date_to fmt
    (p p' : gmap string string) k :
  date_range resource date_from date_to fmt p = inr p' ->
  k <> "date_since" -> k <> "date_until" -> p' !! k = p !! k.
Proof.
  unfold date_range. intros H N1 N2. case_bool_decide.
  - destruct date_from, date_to; simplify_eq. by simplify_map_eq.
  - by simplify_eq.
Qed.

(** What a successful assembly is made of. *)
Lemma assemble_inr_inv self resource application_id fields date_from date_to
    kwargs a :
  assembly self resource application_id fields date_from date_to kwargs
    = inr a ->
  exists model_fields,
    registry !! resource = Some model_fields
    /\ date_range resource date_from date_to "%Y-%m-%d %H:%M:%S"
         (delete "accept_encoding"
            (delete "cache_control" (delete "export_format" kwargs))
          ∪ {[ "application_id" := application_id;
               "fields" := requested_fields model_fields fields ]})
       = inr (params a)
    /\ export_format a = default "csv" (kwargs !! "export_format")
    /\ api_url a = _api_endpoint self +:+ "/" +:+ resource +:+ "."
                     +:+ default "csv" (kwargs !! "export_format")
    /\ headers a = (optional_headers ∅ (delete "export_format" kwargs)).1.
Proof.
  destruct (registry !! resource) as [mf|] eqn:E.
  - rewrite (assemble_registered _ _ _ _ _ _ _ _ E).
    destruct (date_range _ _ _ _ _) as [e|p] eqn:D; [done|].
    intros [= <-]. exists mf. by rewrite D.
  - by rewrite (assemble_unregistered _ _ _ _ _ _ _ E).
Qed.

(** A registered resource with both dates is always assembled. *)
Lemma assemble_dated self resource application_id fields d1 d2 kwargs :
  is_Some (registry !! resource) ->
  exists a,
    assembly self resource application_id fields (Some d1) (Some d2) kwargs
      = inr a.
Proof.
  intros [mf E]. rewrite (assemble_registered _ _ _ _ _ _ _ _ E).
  destruct (date_range_total resource d1 d2 "%Y-%m-%d %H:%M:%S"
    (delete "accept_encoding"
       (delete "cache_control" (delete "export_format" kwargs))
     ∪ {[ "application_id" := application_id;
          "fields" := requested_fields mf fields ]})) as [p ->].
  eauto.
Qed.

(** Once the export is ready the loop hands the body to the decoder. *)
Lemma export_ready self resource application_id fields date_from date_to
    kwargs a waiting r rest :
  assembly self resource application_id fields date_from date_to kwargs
    = inr a ->
  Forall (fun x => still_preparing x = true) waiting ->
  status_code r = 200 ->
  (run_export self resource application_id fields date_from date_to kwargs
     (waiting ++ Answered r :: rest)).2 = decoded (export_format a) r.
Proof.
  intros E Hw H200. rewrite (export_dispatch _ _ _ _ _ _ _ _ _ E).
  rewrite (request_loop_waiting _ _ _ _ _ Hw). cbn [fst snd request_loop].
  by rewrite H200.
Qed.

Lemma head_Some_not_nil {A} (l : list A) x : head l = Some x -> l <> [].
Proof. by destruct l. Qed.

Lemma app_cons_first {A} (l : list A) x rest :
  exists y tl, l ++ x :: rest = y :: tl.
Proof. destruct l; cbn; eauto. Qed.

Lemma decode_csv r : decoded "csv" r = Returned (Text (text r)).
Proof. reflexivity. Qed.

Lemma decode_other fmt r :
  fmt <> "csv" ->
  decoded fmt r = match json_loads (text r) with
                  | Some doc => Returned (Json doc)
                  | None => Raised (JSONDecodeError (text r))
                  end.
Proof. intros H. unfold decode. apply String.eqb_neq in H. by rewrite H. Qed.

(** ** The registry gate *)

Lemma export_unregistered_gate self resource application_id fields
    date_from date_to kwargs server :
  registry !! resource = None ->
  run_export self resource application_id fields date_from date_to kwargs server
    = ([], Raised (not_exportable resource)).
Proof.
  intros H. apply export_failed. by apply assemble_unregistered.
Qed.

(** C1 (amended): when the resource is not a key of the registry, [export]
    raises the client error "resource not available for export" and sends
    nothing, whether or not a field list is supplied: the registry gates
    the whole request, not only the defaulting of the fields. *)
Theorem export_unregistered_fails self resource application_id fields
    date_from date_to kwargs server :
  registry !! resource = None ->
  run_export self resource application_id fields date_from date_to kwargs server
    = ([], Raised (not_exportable resource)).
Proof. apply export_unregistered_gate. Qed.

(** C2: the date rule of lines 94-95 names "profiles" and "push_tokens"
    and lets them through with no dates, no error and no date parameter;
    yet neither name is a key of the registry, so the branch is never
    reached: [export] stops at line 78 with the client error "resource not
    available for export" and sends nothing. The code misses what its own
    date rule prepares for. *)
Theorem export_exempt_resources self resource application_id fields kwargs
    server :
  resource = "profiles" \/ resource = "push_tokens" ->
  (forall fmt (p : gmap string string),
      date_range resource None None fmt p = inr p)
  /\ registry !! resource = None
  /\ run_export self resource application_id fields None None kwargs server
      = ([], Raised (not_exportable resource)).
Proof.
  intros H. split_and!.
  - intros fmt p. by apply date_range_exempt.
  - by apply registry_exempt_absent.
  - apply export_failed, assemble_unregistered. by apply registry_exempt_absent.
Qed.

(** ** The date range rule *)

(** C4 (amended): for a resource other than "profiles" and "push_tokens",
    a missing [date_from] or [date_to] makes [export] raise a client error
    with nothing sent. With both dates and a registered resource, every
    call carries as [date_since] and [date_until] the two dates formatted
    by [strftime] with "%Y-%m-%d %H:%M:%S", which is the layout
    yyyy-MM-dd HH:mm:ss for a date whose year has four digits, and a call
    is sent as soon as the server answers; with both dates and a resource
    that is not registered, [export] raises the client error of the
    registry gate and sends nothing. *)
Theorem export_date_range_rule self resource application_id fields
    date_from date_to kwargs server :
  resource <> "profiles" -> resource <> "push_tokens" ->
  let out := run_export self resource application_id fields date_from date_to
               kwargs server in
  (date_from = None \/ date_to = None ->
     exists msg, out = ([], Raised (AppmetricaClientError (ArgText msg) None)))
  /\ (forall a b, date_from = Some a -> date_to = Some b ->
       (registry !! resource = None ->
          out = ([], Raised (not_exportable resource)))
       /\ (is_Some (registry !! resource) ->
            Forall (fun c =>
                call_params c !! "date_since"
                  = Some (strftime a "%Y-%m-%d %H:%M:%S")
                /\ call_params c !! "date_until"
                    = Some (strftime b "%Y-%m-%d %H:%M:%S"))
              (dispatched out)
            /\ (server <> [] -> dispatched out <> [])
            /\ (datetime_ok a -> 1000 <= Z.of_nat (year a) ->
                datetime_ok b -> 1000 <= Z.of_nat (year b) ->
                Forall (fun c =>
                    call_params c !! "date_since"
                      = Some (yyyy_MM_dd_HH_mm_ss a)
                    /\ call_params c !! "date_until"
                        = Some (yyyy_MM_dd_HH_mm_ss b))
                  (dispatched out)))).
Proof.
  intros N1 N2 out. subst out. split.
  - intros Hmiss. destruct (registry !! resource) as [mf|] eqn:E.
    + eexists. apply export_failed.
      rewrite (assemble_registered _ _ _ _ _ _ _ _ E).
      by rewrite (date_range_missing _ _ _ _ _ N1 N2 Hmiss).
    + eexists. by apply export_unregistered_gate.
  - intros a b -> ->. split.
    + intros E. by apply export_unregistered_gate.
    + intros Hreg.
      assert (Hsent :
        Forall (fun c =>
            call_params c !! "date_since"
              = Some (strftime a "%Y-%m-%d %H:%M:%S")
            /\ call_params c !! "date_until"
                = Some (strftime b "%Y-%m-%d %H:%M:%S"))
          (dispatched (run_export self resource application_id fields
                         (Some a) (Some b) kwargs server))).
      { eapply Forall_impl; [apply export_dispatched_all|].
        intros c (asm & Ha & ->).
        apply assemble_inr_inv in Ha as (mf & _ & Hd & _).
        rewrite (date_range_given _ _ _ _ _ N1 N2) in Hd.
        apply (inj inr) in Hd. cbn [wire_call call_params]. rewrite <- Hd.
        split; [|apply lookup_insert_eq].
        rewrite lookup_insert_ne by done. apply lookup_insert_eq. }
      split_and!.
      * exact Hsent.
      * intros Hne. destruct server as [|x server]; [done|].
        destruct (assemble_dated self resource application_id fields a b
                    kwargs Hreg) as [asm Ha].
        eapply head_Some_not_nil. by apply export_dispatched_first.
      * intros Hoka Hya Hokb Hyb.
        by rewrite <- (strftime_layout a Hoka Hya),
                   <- (strftime_layout b Hokb Hyb).
Qed.

(** ** Fields, URL, headers *)

(** C7 (amended): for a registered resource the [fields] parameter of
    every call is the registered field list of the resource, comma-joined
    in its order, when no list is given, and the given list, comma-joined,
    when one is given; a call is sent as soon as both dates are there and
    the server answers. For a resource that is not registered no field
    list is resolved: the client error of the registry gate is raised
    with or without an explicit list. *)
Theorem export_fields_parameter self resource application_id fields
    date_from date_to kwargs server :
  let out := run_export self resource application_id fields date_from date_to
               kwargs server in
  (forall model_fields,
      registry !! resource = Some model_fields -> keyword_only kwargs ->
      resolve resource fields
        = inr (match fields with
               | None => join "," model_fields
               | Some explicit => join "," explicit
               end)
      /\ Forall (fun c =>
              call_params c !! "fields"
                = Some (match fields with
                        | None => join "," model_fields
                        | Some explicit => join "," explicit
                        end))
           (dispatched out)
      /\ (is_Some date_from -> is_Some date_to -> server <> [] ->
          dispatched out <> []))
  /\ (registry !! resource = None ->
      resolve resource fields = inl (not_exportable resource)
      /\ out = ([], Raised (not_exportable resource))).
Proof.
  intros out. subst out. split.
  - intros mf E Hkw. split_and!.
    + by apply resolve_registered.
    + eapply Forall_impl; [apply export_dispatched_all|].
      intros c (asm & Ha & ->).
      apply assemble_inr_inv in Ha as (mf' & E' & Hd & _).
      rewrite E in E'. injection E' as <-.
      cbn [wire_call call_params].
      rewrite (date_range_preserves _ _ _ _ _ _ "fields" Hd) by done.
      apply base_params_lookup.
      unfold keyword_only, named_parameters in Hkw.
      by inversion Hkw as [|? ? _ [|? ? _ [|? ? H _]]].
    + intros [a ->] [b ->] Hne. destruct server as [|x server]; [done|].
      destruct (assemble_dated self resource application_id fields a b
                  kwargs (mk_is_Some _ _ E)) as [asm Ha].
      eapply head_Some_not_nil. by apply export_dispatched_first.
  - intros E. split; [by apply resolve_unregistered|].
    by apply export_unregistered_gate.
Qed.

(** C8: every call goes to [{endpoint}/{resource}.{export_format}], with
    "csv" for the format when the option is absent; and once the server
    answers 200 to an assembled request (registered resource, both
    dates), the result is the body as text for the format "csv" and the
    parsed document otherwise. *)
Theorem export_url_and_decoding self resource application_id fields
    date_from date_to kwargs :
  let fmt := default "csv" (kwargs !! "export_format") in
  (forall server,
      Forall (fun c =>
          call_url c = _api_endpoint self +:+ "/" +:+ resource +:+ "." +:+ fmt)
        (dispatched (run_export self resource application_id fields date_from
                       date_to kwargs server)))
  /\ (forall waiting r rest,
        is_Some (registry !! resource) ->
        is_Some date_from -> is_Some date_to ->
        Forall (fun x => still_preparing x = true) waiting ->
        status_code r = 200 ->
        let out := run_export self resource application_id fields date_from
                     date_to kwargs (waiting ++ Answered r :: rest) in
        dispatched out <> []
        /\ (fmt = "csv" -> out.2 = Returned (Text (text r)))
        /\ (fmt <> "csv" ->
            out.2 = match json_loads (text r) with
                    | Some doc => Returned (Json doc)
                    | None => Raised (JSONDecodeError (text r))
                    end)).
Proof.
  intros fmt. subst fmt. split.
  - intros server. eapply Forall_impl; [apply export_dispatched_all|].
    intros c (asm & Ha & ->).
    by apply assemble_inr_inv in Ha as (mf & _ & _ & _ & Hu & _).
  - intros waiting r rest Hreg [a ->] [b ->] Hw H200 out. subst out.
    destruct (assemble_dated self resource application_id fields a b kwargs
                Hreg) as [asm Ha].
    rewrite (export_ready _ _ _ _ _ _ _ _ _ _ _ Ha Hw H200).
    pose proof Ha as Hinv.
    apply assemble_inr_inv in Hinv as (mf & _ & _ & -> & _).
    split_and!.
    + destruct (app_cons_first waiting (Answered r) rest) as (y & tl & ->).
      eapply head_Some_not_nil. by apply export_dispatched_first.
    + intros ->. apply decode_csv.
    + apply decode_other.
Qed.

(** C9 (amended): every call carries [Authorization: OAuth {token}];
    it carries [Cache-Control] (resp. [Accept-Encoding]) exactly when the
    option [cache_control] (resp. [accept_encoding]) was supplied with a
    non-empty value, and then with that value; and none of
    [export_format], [cache_control], [accept_encoding] is among its
    query parameters. *)
Theorem export_headers_and_consumed_options self resource application_id
    fields date_from date_to kwargs server :
  Forall (fun c =>
      call_headers c !! "Authorization" = Some ("OAuth " +:+ app_token self)
      /\ call_headers c !! "Cache-Control"
          = header_of (kwargs !! "cache_control")
      /\ call_headers c !! "Accept-Encoding"
          = header_of (kwargs !! "accept_encoding")
      /\ call_params c !! "export_format" = None
      /\ call_params c !! "cache_control" = None
      /\ call_params c !! "accept_encoding" = None)
    (dispatched (run_export self resource application_id fields date_from
                   date_to kwargs server)).
Proof.
  eapply Forall_impl; [apply export_dispatched_all|].
  intros c (asm & Ha & ->).
  apply assemble_inr_inv in Ha as (mf & _ & Hd & _ & _ & Hh).
  cbn [wire_call call_headers call_params]. rewrite Hh.
  destruct (optional_headers_spec (delete "export_format" kwargs))
    as (Hcc & Hae & _ & _).
  rewrite lookup_delete_ne in Hcc by done.
  rewrite lookup_delete_ne in Hae by done.
  rewrite !(date_range_preserves _ _ _ _ _ _ _ Hd) by done.
  split_and!; [by simplify_map_eq..| | |];
    by apply (base_params_lookup kwargs application_id
                (requested_fields mf fields)).
Qed.

(** C10: with an [export_format] other than "csv", "xml" say, the URL
    ends in that format and the body of the 200 answer is parsed as JSON
    all the same (a body that does not parse raises the decoding error). *)
Theorem export_non_csv_is_json self resource application_id fields d1 d2
    kwargs fmt waiting r rest :
  kwargs !! "export_format" = Some fmt -> fmt <> "csv" ->
  is_Some (registry !! resource) ->
  Forall (fun x => still_preparing x = true) waiting ->
  status_code r = 200 ->
  let out := run_export self resource application_id fields (Some d1)
               (Some d2) kwargs (waiting ++ Answered r :: rest) in
  Forall (fun c =>
      call_url c = _api_endpoint self +:+ "/" +:+ resource +:+ "." +:+ fmt)
    (dispatched out)
  /\ dispatched out <> []
  /\ out.2 = match json_loads (text r) with
             | Some doc => Returned (Json doc)
             | None => Raised (JSONDecodeError (text r))
             end.
Proof.
  intros Hfmt Hne Hreg Hw H200 out. subst out.
  destruct (assemble_dated self resource application_id fields d1 d2 kwargs
              Hreg) as [asm Ha].
  pose proof Ha as Hinv.
  apply assemble_inr_inv in Hinv as (mf & _ & _ & Hf & Hu & _).
  rewrite Hfmt in Hf, Hu. cbn [default] in Hf, Hu. split_and!.
  - eapply Forall_impl; [apply export_dispatched_all|].
    intros c (asm' & Ha' & ->). rewrite Ha in Ha'. by injection Ha' as <-.
  - destruct (app_cons_first waiting (Answered r) rest) as (y & tl & ->).
    eapply head_Some_not_nil. by apply export_dispatched_first.
  - rewrite (export_ready _ _ _ _ _ _ _ _ _ _ _ Ha Hw H200), Hf.
    by apply decode_other.
Qed.

End ExportFacts.

(** ** Concrete runs *)

Lemma make_request_terminal_status_witness :
  Forall (fun x => still_preparing x = true) [preparing]
  /\ (let out := _make_request sample_client "u" ∅ ∅
                   [preparing; ok sample_csv; forbidden] in
      out.2 = Returned {| status_code := 200; text := sample_csv |}
      /\ length (dispatched out) = 2%nat /\ length (sleeps out.1) = 1%nat)
  /\ (let out := _make_request sample_client "u" ∅ ∅ [forbidden; ok "late"] in
      out.2 = Raised (AppmetricaApiError "forbidden")
      /\ length (dispatched out) = 1%nat /\ length (sleeps out.1) = 0%nat).
Proof.
  split; [by repeat constructor|]. split.
  - apply (make_request_terminal_status sample_client "u" ∅ ∅ [preparing]
             {| status_code := 200; text := sample_csv |} [forbidden]);
      [by repeat constructor | reflexivity].
  - apply (make_request_terminal_status sample_client "u" ∅ ∅ []
             {| status_code := 403; text := "forbidden" |} [ok "late"]);
      [constructor | cbn; lia..].
Defined.

(** C6, as stated, fails: a connection that breaks while the body is
    read surfaces as [ChunkedEncodingError], which the loop does not turn
    into a client error. *)
Lemma broken_body_is_not_wrapped :
  let out := _make_request sample_client "u" ∅ ∅ [broken_body; ok "late"] in
  out.2 = Raised (Uncaught (OtherRequestError "ChunkedEncodingError"
                              "connection broken"))
  /\ (forall arg ctx, out.2 <> Raised (AppmetricaClientError arg ctx)).
Proof. split; [by vm_compute|]. intros arg ctx. vm_compute. discriminate. Qed.

Lemma make_request_connection_failure_witness :
  Forall (fun x => still_preparing x = true) [preparing]
  /\ (let out := _make_request sample_client "u" ∅ ∅
                   [preparing; refused; ok "late"] in
      out.2 = Raised (AppmetricaClientError ArgConnectionErrorClass
                        (Some (ConnectionError "connection refused")))
      /\ length (dispatched out) = 2%nat /\ length (sleeps out.1) = 1%nat)
  /\ (let out := _make_request sample_client "u" ∅ ∅
                   [preparing; broken_body; ok "late"] in
      out.2 = Raised (Uncaught (OtherRequestError "ChunkedEncodingError"
                                  "connection broken"))
      /\ length (dispatched out) = 2%nat /\ length (sleeps out.1) = 1%nat).
Proof.
  assert (H : Forall (fun x => still_preparing x = true) [preparing])
    by by repeat constructor.
  split; [exact H|]. split.
  - destruct (make_request_connection_failure sample_client "u" ∅ ∅
                [preparing] (ConnectionError "connection refused")
                [ok "late"] H) as (Hc & _ & Hn & Hs).
    split; [exact (Hc _ eq_refl) | split; [exact Hn | exact Hs]].
  - destruct (make_request_connection_failure sample_client "u" ∅ ∅
                [preparing]
                (OtherRequestError "ChunkedEncodingError" "connection broken")
                [ok "late"] H) as (_ & Ho & Hn & Hs).
    split; [exact (Ho _ _ eq_refl) | split; [exact Hn | exact Hs]].
Defined.

(** C1, as stated, fails: an unknown resource with an explicit, non-empty
    field list is refused. *)
Lemma unknown_resource_with_fields_is_refused :
  sample_registry !! "clicks" = None
  /\ sample_export "clicks" "42" (Some ["click_id"]) (Some sample_date)
       (Some sample_until) ∅ [ok "click_id"]
     = ([], Raised (AppmetricaClientError
                      (ArgText "Ресурс clicks не доступен для экспорта.") None)).
Proof. split; by vm_compute. Qed.

Lemma export_unregistered_fails_witness :
  sample_registry !! "deeplinks" = None
  /\ sample_export "deeplinks" "42" None None None ∅ [ok "x"]
     = ([], Raised (not_exportable "deeplinks")).
Proof.
  split; [by vm_compute|].
  apply (export_unregistered_fails sample_events_fields
           sample_installations_fields string sample_loads sample_client
           "deeplinks" "42" None None None ∅ [ok "x"]).
  by vm_compute.
Defined.

(** The same on one run: "profiles" with explicit fields and no dates. *)
Lemma profiles_without_dates_is_refused :
  sample_export "profiles" "42" (Some ["profile_id"]) None None ∅ [ok "x"]
  = ([], Raised (AppmetricaClientError
                   (ArgText "Ресурс profiles не доступен для экспорта.") None)).
Proof. by vm_compute. Qed.

Lemma export_exempt_resources_witness :
  ("push_tokens" = "profiles" \/ "push_tokens" = "push_tokens")
  /\ date_range "push_tokens" None None "%Y-%m-%d %H:%M:%S"
       {[ "application_id" := "42" ]} = inr {[ "application_id" := "42" ]}
  /\ sample_export "push_tokens" "42" None None None ∅ [ok "x"]
     = ([], Raised (not_exportable "push_tokens")).
Proof.
  split; [by right|].
  destruct (export_exempt_resources sample_events_fields
              sample_installations_fields string sample_loads sample_client
              "push_tokens" "42" None ∅ [ok "x"]) as (Hd & _ & He);
    [by right|].
  split; [apply Hd | exact He].
Defined.

(** C4, as stated, fails twice. With both dates, a resource outside
    {"profiles", "push_tokens"} that is not registered gets no call at all,
    so no [date_since] and no [date_until]; and for a registered resource
    a date of the year 999 is sent with a three-digit year, eighteen
    characters instead of the nineteen of yyyy-MM-dd HH:mm:ss. *)
Lemma dates_are_not_always_attached_in_layout :
  ("clicks" <> "profiles" /\ "clicks" <> "push_tokens"
   /\ dispatched (sample_export "clicks" "42" (Some ["click_id"])
                    (Some sample_date) (Some sample_until) ∅ [ok "x"]) = []
   /\ (sample_export "clicks" "42" (Some ["click_id"]) (Some sample_date)
         (Some sample_until) ∅ [ok "x"]).2
      = Raised (AppmetricaClientError
                  (ArgText "Ресурс clicks не доступен для экспорта.") None))
  /\ (datetime_ok sample_early
      /\ exists c,
           dispatched (sample_export "events" "42" None (Some sample_early)
                         (Some sample_until) ∅ [ok "x"]) = [c]
           /\ call_params c !! "date_since" = Some "999-01-05 03:04:09"
           /\ call_params c !! "date_since"
              <> Some (yyyy_MM_dd_HH_mm_ss sample_early)
           /\ String.length "999-01-05 03:04:09" = 18%nat).
Proof.
  split; [split_and!; [done.. | by vm_compute | by vm_compute]|].
  split; [unfold datetime_ok; cbn; lia|].
  eexists. split_and!; [by vm_compute | by vm_compute | | by vm_compute].
  vm_compute. discriminate.
Qed.

Lemma export_date_range_rule_witness :
  "events" <> "profiles" /\ "events" <> "push_tokens"
  /\ datetime_ok sample_date /\ 1000 <= Z.of_nat (year sample_date)
  /\ datetime_ok sample_until /\ 1000 <= Z.of_nat (year sample_until)
  /\ Forall (fun c =>
         call_params c !! "date_since" = Some "2024-01-05 03:04:09"
         /\ call_params c !! "date_until" = Some "2024-12-31 23:59:59")
       (dispatched (sample_export "events" "42" None (Some sample_date)
                      (Some sample_until) ∅ [preparing; ok "x"]))
  /\ dispatched (sample_export "events" "42" None (Some sample_date)
                   (Some sample_until) ∅ [preparing; ok "x"]) <> [].
Proof.
  assert (Hoka : datetime_ok sample_date) by (unfold datetime_ok; cbn; lia).
  assert (Hya : 1000 <= Z.of_nat (year sample_date)) by (cbn; lia).
  assert (Hokb : datetime_ok sample_until) by (unfold datetime_ok; cbn; lia).
  assert (Hyb : 1000 <= Z.of_nat (year sample_until)) by (cbn; lia).
  split; [done|]. split; [done|]. split; [exact Hoka|]. split; [exact Hya|].
  split; [exact Hokb|]. split; [exact Hyb|].
  destruct (export_date_range_rule sample_events_fields
              sample_installations_fields string sample_loads sample_client
              "events" "42" None (Some sample_date) (Some sample_until) ∅
              [preparing; ok "x"]) as [_ H]; [done..|].
  destruct (H sample_date sample_until eq_refl eq_refl) as [_ H'].
  destruct H' as (_ & Hsome & Hlayout); [by eexists; vm_compute|].
  split; [exact (Hlayout Hoka Hya Hokb Hyb) | by apply Hsome].
Defined.

(** C7, as stated, fails: for a resource that is not registered the
    explicit list is never joined into a [fields] parameter. *)
Lemma unknown_resource_fields_are_not_sent :
  sample_registry !! "clicks" = None
  /\ resolve_fields sample_events_fields sample_installations_fields "clicks"
       (Some ["click_id"; "click_datetime"])
     = inl (AppmetricaClientError
              (ArgText "Ресурс clicks не доступен для экспорта.") None)
  /\ dispatched (sample_export "clicks" "42"
                   (Some ["click_id"; "click_datetime"]) (Some sample_date)
                   (Some sample_until) ∅ [ok "x"]) = [].
Proof. split_and!; by vm_compute. Qed.

Lemma export_fields_parameter_witness :
  sample_registry !! "events" = Some sample_events_fields
  /\ keyword_only {[ "limit" := "5" ]}
  /\ Forall (fun c => call_params c !! "fields" = Some "event_name,event_timestamp")
       (dispatched (sample_export "events" "42" None (Some sample_date)
                      (Some sample_until) {[ "limit" := "5" ]} [ok "x"]))
  /\ Forall (fun c => call_params c !! "fields" = Some "event_name")
       (dispatched (sample_export "events" "42" (Some ["event_name"])
                      (Some sample_date) (Some sample_until)
                      {[ "limit" := "5" ]} [ok "x"]))
  /\ dispatched (sample_export "events" "42" None (Some sample_date)
                   (Some sample_until) {[ "limit" := "5" ]} [ok "x"]) <> [].
Proof.
  assert (Hreg : sample_registry !! "events" = Some sample_events_fields)
    by by vm_compute.
  assert (Hkw : keyword_only {[ "limit" := "5" ]})
    by (repeat constructor; by vm_compute).
  split; [exact Hreg|]. split; [exact Hkw|].
  destruct (export_fields_parameter sample_events_fields
              sample_installations_fields string sample_loads sample_client
              "events" "42" None (Some sample_date) (Some sample_until)
              {[ "limit" := "5" ]} [ok "x"]) as [Hdefault _].
  destruct (Hdefault _ Hreg Hkw) as (_ & Hall & Hsome).
  destruct (export_fields_parameter sample_events_fields
              sample_installations_fields string sample_loads sample_client
              "events" "42" (Some ["event_name"]) (Some sample_date)
              (Some sample_until) {[ "limit" := "5" ]} [ok "x"])
    as [Hexplicit _].
  destruct (Hexplicit _ Hreg Hkw) as (_ & Hall' & _).
  split; [exact Hall|]. split; [exact Hall'|]. by apply Hsome.
Defined.

Lemma export_url_and_decoding_witness :
  is_Some (sample_registry !! "events")
  /\ status_code {| status_code := 200; text := sample_csv |} = 200
  /\ Forall (fun c =>
         call_url c
           = "https://api.appmetrica.yandex.ru/logs/v1/export/events.csv")
       (dispatched (sample_export "events" "42" None (Some sample_date)
                      (Some sample_until) ∅ [ok sample_csv]))
  /\ (sample_export "events" "42" None (Some sample_date) (Some sample_until) ∅
        [ok sample_csv]).2 = Returned (Text sample_csv).
Proof.
  assert (Hreg : is_Some (sample_registry !! "events")) by by eexists; vm_compute.
  split; [exact Hreg|]. split; [reflexivity|].
  destruct (export_url_and_decoding sample_events_fields
              sample_installations_fields string sample_loads sample_client
              "events" "42" None (Some sample_date) (Some sample_until) ∅)
    as [Hurl Hdec].
  split; [exact (Hurl [ok sample_csv])|].
  destruct (Hdec [] {| status_code := 200; text := sample_csv |} [] Hreg)
    as (_ & Hcsv & _); [by eexists | by eexists | constructor | reflexivity |].
  by apply Hcsv.
Defined.

(** C9, as stated, fails: [cache_control] supplied as the empty string
    leaves the call without a [Cache-Control] header. *)
Lemma empty_cache_control_sets_no_header :
  let kwargs : gmap string string := {[ "cache_control" := "" ]} in
  is_Some (kwargs !! "cache_control")
  /\ exists c,
       dispatched (sample_export "events" "42" None (Some sample_date)
                     (Some sample_until) kwargs [ok "x"]) = [c]
       /\ call_headers c !! "Cache-Control" = None.
Proof.
  split; [by eexists; vm_compute|]. eexists. split; by vm_compute.
Qed.

(** A call with both optional headers, for comparison. *)
Example both_headers_are_forwarded :
  let kwargs : gmap string string :=
    {[ "cache_control" := "no-cache"; "accept_encoding" := "gzip";
       "export_format" := "json"; "limit" := "5" ]} in
  exists c,
    dispatched (sample_export "installations" "42" None (Some sample_date)
                  (Some sample_until) kwargs [ok "[]"]) = [c]
    /\ call_headers c
       = {[ "Authorization" := "OAuth t0k3n"; "Cache-Control" := "no-cache";
            "Accept-Encoding" := "gzip" ]}
    /\ call_params c !! "limit" = Some "5"
    /\ call_params c !! "export_format" = None.
Proof. eexists. split_and!; by vm_compute. Qed.

Lemma export_non_csv_is_json_witness :
  ({[ "export_format" := "xml" ]} : gmap string string) !! "export_format"
    = Some "xml"
  /\ "xml" <> "csv"
  /\ is_Some (sample_registry !! "installations")
  /\ Forall (fun c =>
         call_url c
           = "https://api.appmetrica.yandex.ru/logs/v1/export/installations.xml")
       (dispatched (sample_export "installations" "42" None (Some sample_date)
                      (Some sample_until) {[ "export_format" := "xml" ]}
                      [preparing; ok "<rows/>"]))
  /\ (sample_export "installations" "42" None (Some sample_date)
        (Some sample_until) {[ "export_format" := "xml" ]}
        [preparing; ok "<rows/>"]).2 = Returned (Json "<rows/>").
Proof.
  assert (Hreg : is_Some (sample_registry !! "installations"))
    by by eexists; vm_compute.
  split; [by vm_compute|]. split; [done|]. split; [exact Hreg|].
  destruct (export_non_csv_is_json sample_events_fields
              sample_installations_fields string sample_loads sample_client
              "installations" "42" None sample_date sample_until
              {[ "export_format" := "xml" ]} "xml" [preparing]
              {| status_code := 200; text := "<rows/>" |} [])
    as (Hurl & _ & Hdec);
    [by vm_compute | done | exact Hreg | by repeat constructor | reflexivity |].
  split; [exact Hurl | exact Hdec].
Defined.

(** ** More on the polling loop *)

Lemma sleeps_waiting c b n k :
  sleeps (waiting_events c b n k)
  = (fun i => sleep_interval b (n + Z.of_nat i)) <$> seq 1 k.
Proof.
  revert n. induction k as [|k IH]; intros n; [done|].
  cbn [waiting_events]. change (sleeps (Requested c :: Slept ?s :: ?l))
    with (s :: sleeps l). rewrite IH. cbn [seq fmap list_fmap]. f_equal.
  rewrite <- (fmap_S_seq 1 k), <- list_fmap_compose. apply list_fmap_ext.
  intros _ i _. cbn [compose]. f_equal. lia.
Qed.

Lemma request_loop_terminal_no_sleep c b n x rest :
  still_preparing x = false ->
  sleeps (request_loop c b n (x :: rest)).1 = []
  /\ requests (request_loop c b n (x :: rest)).1 = [c]
  /\ (request_loop c b n (x :: rest)).2 <> Polling.
Proof.
  intros H. destruct x as [r|f]; cbn [request_loop still_preparing] in *;
    [|by destruct f].
  destruct (status_code r =? 200); [done|]. by rewrite H.
Qed.

(** X1: nothing bounds the number of retries. As long as the server
    answers 201 or 202 the loop goes on: one call and one sleep per reply,
    and no result. *)
Theorem make_request_keeps_polling self url params headers server :
  Forall (fun x => still_preparing x = true) server ->
  let out := _make_request self url params headers server in
  out.2 = Polling
  /\ length (dispatched out) = length server
  /\ length (sleeps out.1) = length server.
Proof.
  intros Hw out. subst out. unfold _make_request, dispatched.
  match goal with
  | |- context [request_loop ?c ?b ?n server] =>
      pose proof (request_loop_waiting c b n server [] Hw) as H
  end.
  rewrite app_nil_r in H. rewrite H. cbn [request_loop fst snd].
  rewrite !app_nil_r, requests_waiting, length_replicate, sleeps_waiting_length.
  done.
Qed.

(** X2: the delays of a run are [20 xor 1], [20 xor 2], ...: the [i]-th
    wait lasts [20 xor i] seconds, whatever ends the waiting. *)
Theorem make_request_sleep_schedule self url params headers waiting x rest :
  Forall (fun x => still_preparing x = true) waiting ->
  still_preparing x = false ->
  sleeps (_make_request self url params headers (waiting ++ x :: rest)).1
  = (fun i => Z.lxor 20 (Z.of_nat i)) <$> seq 1 (length waiting).
Proof.
  intros Hw Hx. unfold _make_request.
  rewrite (request_loop_waiting _ _ _ _ _ Hw). cbn [fst].
  rewrite sleeps_app, sleeps_waiting.
  destruct (request_loop_terminal_no_sleep
              {| call_method := "GET"; call_url := url; call_params := params;
                 call_headers :=
                   <["Authorization" := "OAuth " +:+ app_token self]> headers |}
              10 (0 + Z.of_nat (length waiting)) x rest Hx) as (-> & _ & _).
  by rewrite app_nil_r.
Qed.

(** X3: the delay before retry [k] is never negative, stays within 20
    seconds of [k] (it does not double), and is zero exactly at the
    twentieth retry. *)
Theorem sleep_interval_bounds k :
  0 <= k ->
  0 <= sleep_interval 10 k
  /\ k - 20 <= sleep_interval 10 k <= k + 20
  /\ (sleep_interval 10 k = 0 <-> k = 20).
Proof.
  intros Hk. unfold sleep_interval. change (10 * 2) with 20.
  pose proof (Z.add_lxor_2land 20 k) as Hsum.
  assert (0 <= Z.land 20 k) by (apply Z.land_nonneg; lia).
  assert (0 <= Z.land 20 (Z.lnot k)) by (apply Z.land_nonneg; lia).
  pose proof (Z.sub_land_same_l 20 k) as Hsub.
  assert (0 <= Z.land k (Z.lnot 20)) by (apply Z.land_nonneg; lia).
  pose proof (Z.sub_land_same_l k 20) as Hsub'.
  rewrite (Z.land_comm k 20) in Hsub'.
  split; [apply Z.lxor_nonneg; lia|]. split; [lia|].
  rewrite Z.lxor_eq_0_iff. split; intros; lia.
Qed.

Lemma request_loop_counts c b n server :
  let out := request_loop c b n server in
  (length (requests out.1) <= length server)%nat
  /\ (out.2 = Polling -> length (requests out.1) = length (sleeps out.1))
  /\ (out.2 <> Polling -> length (requests out.1) = S (length (sleeps out.1))).
Proof.
  revert n. induction server as [|x server IH]; intros n; [by cbn|].
  destruct x as [r|f]; cbn [request_loop];
    [|destruct f; (cbn; split_and!; [lia|done..])].
  destruct (status_code r =? 200); [cbn; split_and!; [lia|done..]|].
  destruct ((status_code r =? 201) || (status_code r =? 202));
    [|cbn; split_and!; [lia|done..]].
  specialize (IH (n + 1)). cbn zeta in IH.
  destruct (request_loop c b (n + 1) server) as [evs res].
  cbn [fst snd] in *. change (requests (Requested c :: Slept ?s :: ?l))
    with (c :: requests l). change (sleeps (Requested c :: Slept ?s :: ?l))
    with (s :: sleeps l). cbn [length].
  destruct IH as (IH1 & IH2 & IH3). split_and!; [lia|..]; intros H.
  - by rewrite (IH2 H).
  - by rewrite (IH3 H).
Qed.

Lemma request_loop_extend c b n server later :
  (request_loop c b n server).2 <> Polling ->
  request_loop c b n (server ++ later) = request_loop c b n server.
Proof.
  revert n. induction server as [|x server IH]; intros n; [done|].
  destruct x as [r|f]; cbn [request_loop app]; [|by destruct f].
  destruct (status_code r =? 200); [done|].
  destruct ((status_code r =? 201) || (status_code r =? 202)); [|done].
  specialize (IH (n + 1)).
  destruct (request_loop c b (n + 1) server) as [evs res]. cbn [snd] in *.
  intros H. by rewrite (IH H).
Qed.

Lemma request_loop_sound c b n server :
  match (request_loop c b n server).2 with
  | Returned r => Answered r ∈ server /\ status_code r = 200
  | Raised (AppmetricaApiError d) =>
      exists r, Answered r ∈ server /\ text r = d /\ status_code r <> 200
                /\ status_code r <> 201 /\ status_code r <> 202
  | Raised (AppmetricaClientError a ctx) =>
      a = ArgConnectionErrorClass
      /\ exists f, ctx = Some f /\ Failed f ∈ server
                   /\ exists reason, f = ConnectionError reason
  | Raised (JSONDecodeError _) => False
  | Raised (Uncaught f) =>
      Failed f ∈ server
      /\ exists class reason, f = OtherRequestError class reason
  | Polling => Forall (fun x => still_preparing x = true) server
  end.
Proof.
  revert n. induction server as [|x server IH]; intros n; [by cbn|].
  destruct x as [r|f]; cbn [request_loop].
  - destruct (status_code r =? 200) eqn:E200.
    { cbn. split; [apply list_elem_of_here | by apply Z.eqb_eq]. }
    destruct ((status_code r =? 201) || (status_code r =? 202)) eqn:Eprep.
    + specialize (IH (n + 1)).
      destruct (request_loop c b (n + 1) server) as [evs res]. cbn [snd] in *.
      destruct res as [r'|[a ctx|d|d|f]|]; [| | |done| |].
      * destruct IH. split; [by apply list_elem_of_further|done].
      * destruct IH as (? & f & ? & ? & ?). split; [done|]. exists f.
        split; [done|]. split; [by apply list_elem_of_further|done].
      * destruct IH as (r' & ? & ?). exists r'.
        split; [by apply list_elem_of_further|done].
      * destruct IH. split; [by apply list_elem_of_further|done].
      * by constructor.
    + cbn. exists r. apply orb_false_iff in Eprep as [E201 E202].
      apply Z.eqb_neq in E200, E201, E202.
      split; [apply list_elem_of_here | done].
  - destruct f as [reason|class reason]; cbn.
    + split; [done|]. eexists. split; [done|].
      split; [apply list_elem_of_here | by eexists].
    + split; [apply list_elem_of_here | by eexists; eexists].
Qed.

(** X4: the loop sends at most one call per reply of the server; a run
    that ends (a result or an error) has made exactly one call more than it
    slept, and a run that is still waiting has slept after every call. *)
Theorem make_request_trace_counts self url params headers server :
  let out := _make_request self url params headers server in
  (length (dispatched out) <= length server)%nat
  /\ (out.2 = Polling -> length (dispatched out) = length (sleeps out.1))
  /\ (out.2 <> Polling -> length (dispatched out) = S (length (sleeps out.1))).
Proof. apply request_loop_counts. Qed.

(** X5: once the loop has a result or an error, what the server would
    answer afterwards changes nothing: the trace and the outcome are the
    same. *)
Theorem make_request_ignores_later_replies self url params headers server later :
  (_make_request self url params headers server).2 <> Polling ->
  _make_request self url params headers (server ++ later)
  = _make_request self url params headers server.
Proof. apply request_loop_extend. Qed.

(** X6: every call of the loop is a GET to the given URL with the given
    parameters; its [Authorization] header is the client's token, even if
    the given headers hold another one, and all other headers are the given
    ones. *)
Theorem make_request_sends_what_it_is_given self url params headers server :
  Forall (fun c =>
      call_method c = "GET" /\ call_url c = url /\ call_params c = params
      /\ call_headers c !! "Authorization" = Some ("OAuth " +:+ app_token self)
      /\ forall k, k <> "Authorization" -> call_headers c !! k = headers !! k)
    (dispatched (_make_request self url params headers server)).
Proof.
  unfold dispatched, _make_request.
  eapply Forall_impl; [apply request_loop_same_call|].
  intros c ->. cbn. split_and!; [done..|by simplify_map_eq|].
  intros k Hk. by rewrite lookup_insert_ne.
Qed.

(** X7: where an outcome of the loop comes from. A returned response is a
    reply of the server with status 200; an [AppmetricaApiError] carries the
    body of a reply whose status is none of 200, 201, 202; an
    [AppmetricaClientError] comes from a [ConnectionError] only; an
    exception the loop lets through is a failure of another class; and
    while the loop waits, every reply so far was 201 or 202. *)
Theorem make_request_outcome_sound self url params headers server :
  match (_make_request self url params headers server).2 with
  | Returned r => Answered r ∈ server /\ status_code r = 200
  | Raised (AppmetricaApiError d) =>
      exists r, Answered r ∈ server /\ text r = d /\ status_code r <> 200
                /\ status_code r <> 201 /\ status_code r <> 202
  | Raised (AppmetricaClientError a ctx) =>
      a = ArgConnectionErrorClass
      /\ exists f, ctx = Some f /\ Failed f ∈ server
                   /\ exists reason, f = ConnectionError reason
  | Raised (JSONDecodeError _) => False
  | Raised (Uncaught f) =>
      Failed f ∈ server
      /\ exists class reason, f = OtherRequestError class reason
  | Polling => Forall (fun x => still_preparing x = true) server
  end.
Proof. apply request_loop_sound. Qed.

(** ** More on request assembly *)

Lemma optional_headers_other (kwargs : gmap string string) k :
  k <> "Cache-Control" -> k <> "Accept-Encoding" ->
  (optional_headers ∅ kwargs).1 !! k = None.
Proof.
  intros N1 N2. unfold optional_headers, optional_header, pop.
  destruct (kwargs !! "cache_control") as [v|]; [destruct (truthy v)|];
    (destruct (delete "cache_control" kwargs !! "accept_encoding") as [w|];
     [destruct (truthy w)|]); cbn [fst]; by simplify_map_eq.
Qed.

Section AssemblyFacts.

Variables EventsSchema InstallationsSchema : list string.
Variable json : Type.
Variable json_loads : string -> option json.

Local Abbreviation registry := (RESOURCES_SCHEMA EventsSchema InstallationsSchema).
Local Abbreviation assembly := (assemble EventsSchema InstallationsSchema).
Local Abbreviation run_export :=
  (export EventsSchema InstallationsSchema json json_loads).
Local Abbreviation decoded := (decode json json_loads).

Lemma registered_names resource :
  is_Some (registry !! resource) <->
  resource = "events" \/ resource = "installations".
Proof.
  destruct (registry_lookup EventsSchema InstallationsSchema) as (He & Hi & Hn).
  split.
  - intros Hs. destruct (decide (resource = "events")) as [|N1]; [by left|].
    destruct (decide (resource = "installations")) as [|N2]; [by right|].
    rewrite (Hn _ N1 N2) in Hs. by destruct Hs.
  - intros [-> | ->]; eauto.
Qed.

Lemma assemble_inl_inv self resource application_id fields date_from date_to
    kwargs e :
  assembly self resource application_id fields date_from date_to kwargs
    = inl e ->
  (registry !! resource = None /\ e = not_exportable resource)
  \/ (is_Some (registry !! resource)
      /\ (date_from = None \/ date_to = None)
      /\ e = date_range_required resource).
Proof.
  destruct (registry !! resource) as [mf|] eqn:E.
  - rewrite (assemble_registered _ _ _ _ _ _ _ _ _ _ E). unfold date_range.
    case_bool_decide; [|done].
    destruct date_from, date_to; [done|..]; intros [= <-]; right; eauto.
  - rewrite (assemble_unregistered _ _ _ _ _ _ _ _ _ E). intros [= <-]. by left.
Qed.

(** X8: all the calls of one [export] are the same GET: the retries
    re-issue the first request unchanged. *)
Theorem export_requests_identical self resource application_id fields
    date_from date_to kwargs server :
  let sent := dispatched (run_export self resource application_id fields
                            date_from date_to kwargs server) in
  Forall (fun c => call_method c = "GET") sent
  /\ forall c1 c2, c1 ∈ sent -> c2 ∈ sent -> c1 = c2.
Proof.
  intros sent. subst sent.
  pose proof (export_dispatched_all EventsSchema InstallationsSchema json
                json_loads self resource application_id fields date_from
                date_to kwargs server) as Hall.
  split.
  - eapply Forall_impl; [exact Hall|]. by intros c (a & _ & ->).
  - rewrite Forall_forall in Hall. intros c1 c2 H1 H2.
    destruct (Hall _ H1) as (a1 & Ha1 & ->).
    destruct (Hall _ H2) as (a2 & Ha2 & ->).
    rewrite Ha1 in Ha2. by injection Ha2 as <-.
Qed.

(** X9: an option that is neither consumed by [export] ([export_format],
    [cache_control], [accept_encoding]) nor one of the parameters it builds
    itself is forwarded as it is, and no such parameter is made up: the call
    has the key exactly when the caller gave it, with the same value. *)
Theorem export_passes_options_through self resource application_id fields
    date_from date_to kwargs server k :
  k ∉ ["export_format"; "cache_control"; "accept_encoding";
       "application_id"; "fields"; "date_since"; "date_until"] ->
  Forall (fun c => call_params c !! k = kwargs !! k)
    (dispatched (run_export self resource application_id fields date_from
                   date_to kwargs server)).
Proof.
  rewrite !not_elem_of_cons. intros (N1 & N2 & N3 & N4 & N5 & N6 & N7 & _).
  eapply Forall_impl; [apply export_dispatched_all|].
  intros c (a & Ha & ->).
  apply assemble_inr_inv in Ha as (mf & _ & Hd & _).
  cbn [wire_call call_params].
  rewrite (date_range_preserves _ _ _ _ _ _ k Hd) by done.
  rewrite lookup_union_l by by simplify_map_eq.
  by rewrite !lookup_delete_ne.
Qed.

(** X10: every call carries the [application_id] it was given. *)
Theorem export_application_id self resource application_id fields
    date_from date_to kwargs server :
  keyword_only kwargs ->
  Forall (fun c => call_params c !! "application_id" = Some application_id)
    (dispatched (run_export self resource application_id fields date_from
                   date_to kwargs server)).
Proof.
  intros Hkw. eapply Forall_impl; [apply export_dispatched_all|].
  intros c (a & Ha & ->).
  apply assemble_inr_inv in Ha as (mf & _ & Hd & _).
  cbn [wire_call call_params].
  rewrite (date_range_preserves _ _ _ _ _ _ "application_id" Hd) by done.
  unfold keyword_only, named_parameters in Hkw.
  inversion Hkw as [|? ? _ [|? ? Happ _]]; subst.
  rewrite lookup_union_r; by simplify_map_eq.
Qed.

(** X11: an [AppmetricaClientError] with a message is raised before the
    network is touched, and there are two of them only: the resource is not
    registered, or it is registered and a date is missing. *)
Theorem export_message_error_sends_nothing self resource application_id
    fields date_from date_to kwargs server msg ctx :
  let out := run_export self resource application_id fields date_from date_to
               kwargs server in
  out.2 = Raised (AppmetricaClientError (ArgText msg) ctx) ->
  out.1 = []
  /\ ((registry !! resource = None
       /\ out.2 = Raised (not_exportable resource))
      \/ (is_Some (registry !! resource)
          /\ (date_from = None \/ date_to = None)
          /\ out.2 = Raised (date_range_required resource))).
Proof.
  intros out. subst out.
  destruct (assembly self resource application_id fields date_from date_to
              kwargs) as [e|a] eqn:E.
  - rewrite (export_failed _ _ _ _ _ _ _ _ _ _ _ _ _ E). cbn [fst snd].
    intros _. split; [done|].
    apply assemble_inl_inv in E as [[? ->] | (? & ? & ->)]; [by left | by right].
  - rewrite (export_dispatch _ _ _ _ _ _ _ _ _ _ _ _ _ E). cbn [fst snd].
    pose proof (request_loop_sound (wire_call self a) 10 0 server) as Hs.
    destruct ((request_loop (wire_call self a) 10 0 server).2)
      as [r|[arg c|d|d|f]|]; [|by destruct Hs as [-> _]|done..].
    unfold decode. destruct (String.eqb _ _); [done|].
    by destruct (json_loads (text r)).
Qed.

(** X12: what [export] returns is always the body of a reply with status
    200: as text when the format is "csv" (given or by default), as the
    parsed document otherwise. *)
Theorem export_result_origin self resource application_id fields date_from
    date_to kwargs server v :
  (export EventsSchema InstallationsSchema json json_loads self resource
     application_id fields date_from date_to kwargs server).2 = Returned v ->
  exists r,
    Answered r ∈ server /\ status_code r = 200
    /\ ((default "csv" (kwargs !! "export_format") = "csv"
         /\ v = Text (text r))
        \/ (default "csv" (kwargs !! "export_format") <> "csv"
            /\ exists doc, json_loads (text r) = Some doc /\ v = Json doc)).
Proof.
  destruct (assembly self resource application_id fields date_from date_to
              kwargs) as [e|a] eqn:E.
  - by rewrite (export_failed _ _ _ _ _ _ _ _ _ _ _ _ _ E).
  - rewrite (export_dispatch _ _ _ _ _ _ _ _ _ _ _ _ _ E). cbn [snd].
    pose proof (request_loop_sound (wire_call self a) 10 0 server) as Hs.
    apply assemble_inr_inv in E as (mf & _ & _ & Hf & _).
    destruct ((request_loop (wire_call self a) 10 0 server).2)
      as [r|e|]; [|done..].
    destruct Hs as [Hin H200]. rewrite Hf. intros Hv. exists r.
    split; [done|]. split; [done|]. unfold decode in Hv.
    destruct (String.eqb _ "csv") eqn:Ecsv.
    + apply String.eqb_eq in Ecsv. left. split; [done|]. by injection Hv as <-.
    + apply String.eqb_neq in Ecsv. right. split; [done|].
      destruct (json_loads (text r)) as [doc|]; [|done].
      exists doc. split; [done|]. by injection Hv as <-.
Qed.

(** X13: an empty field list is a list all the same: for a registered
    resource the call then carries an empty [fields] parameter, not the
    registered fields. *)
Theorem export_empty_field_list self resource application_id date_from
    date_to kwargs server :
  is_Some (registry !! resource) -> keyword_only kwargs ->
  Forall (fun c => call_params c !! "fields" = Some "")
    (dispatched (run_export self resource application_id (Some []) date_from
                   date_to kwargs server)).
Proof.
  intros [mf E] Hkw. eapply Forall_impl; [apply export_dispatched_all|].
  intros c (a & Ha & ->).
  apply assemble_inr_inv in Ha as (mf' & _ & Hd & _).
  cbn [wire_call call_params].
  rewrite (date_range_preserves _ _ _ _ _ _ "fields" Hd) by done.
  unfold keyword_only, named_parameters in Hkw.
  inversion Hkw as [|? ? _ [|? ? _ [|? ? Hf _]]]; subst.
  rewrite lookup_union_r; by simplify_map_eq.
Qed.

(** X14: a call never has a header besides [Authorization],
    [Cache-Control] and [Accept-Encoding]: no option leaks into the
    headers. *)
Theorem export_header_keys self resource application_id fields date_from
    date_to kwargs server k :
  k ∉ ["Authorization"; "Cache-Control"; "Accept-Encoding"] ->
  Forall (fun c => call_headers c !! k = None)
    (dispatched (run_export self resource application_id fields date_from
                   date_to kwargs server)).
Proof.
  rewrite !not_elem_of_cons. intros (N1 & N2 & N3 & _).
  eapply Forall_impl; [apply export_dispatched_all|].
  intros c (a & Ha & ->).
  apply assemble_inr_inv in Ha as (mf & _ & _ & _ & _ & Hh).
  cbn [wire_call call_headers]. rewrite Hh, lookup_insert_ne by done.
  by apply optional_headers_other.
Qed.

(** X15: a client built from a token sends every call to the AppMetrica
    export endpoint, [.../logs/v1/export/{resource}.{format}], and signs it
    with that token. *)
Theorem init_then_export token resource application_id fields date_from
    date_to kwargs server :
  Forall (fun c =>
      call_url c
        = "https://api.appmetrica.yandex.ru/logs/v1/export/" +:+ resource
            +:+ "." +:+ default "csv" (kwargs !! "export_format")
      /\ call_headers c !! "Authorization" = Some ("OAuth " +:+ token))
    (dispatched (run_export (AppMetrica_init token) resource application_id
                   fields date_from date_to kwargs server)).
Proof.
  eapply Forall_impl; [apply export_dispatched_all|].
  intros c (a & Ha & ->).
  apply assemble_inr_inv in Ha as (mf & _ & _ & _ & Hu & _).
  cbn [wire_call call_url call_headers]. rewrite Hu. split; [done|].
  by simplify_map_eq.
Qed.

(** X16: with a server that answers, [export] reaches the network exactly
    when the resource is "events" or "installations" and both dates are
    given. *)
Theorem export_contacts_server_iff self resource application_id fields
    date_from date_to kwargs x server :
  dispatched (run_export self resource application_id fields date_from
                date_to kwargs (x :: server)) <> []
  <-> (resource = "events" \/ resource = "installations")
      /\ is_Some date_from /\ is_Some date_to.
Proof.
  rewrite <- registered_names. split.
  - intros Hne.
    destruct (assembly self resource application_id fields date_from date_to
                kwargs) as [e|a] eqn:E.
    { by rewrite (export_failed _ _ _ _ _ _ _ _ _ _ _ _ _ E) in Hne. }
    apply assemble_inr_inv in E as (mf & Hreg & Hd & _).
    split; [by eexists|].
    assert (Hscoped : resource <> "profiles" /\ resource <> "push_tokens").
    { split; intros ->;
        by rewrite (registry_exempt_absent EventsSchema InstallationsSchema)
          in Hreg by auto. }
    destruct Hscoped as [N1 N2].
    destruct date_from as [a1|], date_to as [b1|]; [by split; eexists|..];
      by rewrite date_range_missing in Hd by auto.
  - intros (Hreg & [a ->] & [b ->]).
    destruct (assemble_dated EventsSchema InstallationsSchema self resource
                application_id fields a b kwargs Hreg) as [asm Ha].
    eapply head_Some_not_nil.
    by apply (export_dispatched_first EventsSchema InstallationsSchema json
                json_loads).
Qed.

End AssemblyFacts.

(** ** More concrete runs *)

Lemma make_request_keeps_polling_witness :
  Forall (fun x => still_preparing x = true) [preparing; preparing; preparing]
  /\ (let out := _make_request sample_client "u" ∅ ∅
                   [preparing; preparing; preparing] in
      out.2 = Polling /\ length (dispatched out) = 3%nat
      /\ length (sleeps out.1) = 3%nat).
Proof.
  assert (H : Forall (fun x => still_preparing x = true)
                [preparing; preparing; preparing]) by by repeat constructor.
  split; [exact H|].
  exact (make_request_keeps_polling sample_client "u" ∅ ∅ _ H).
Defined.

Lemma make_request_sleep_schedule_witness :
  Forall (fun x => still_preparing x = true) [preparing; preparing; preparing]
  /\ still_preparing refused = false
  /\ sleeps (_make_request sample_client "u" ∅ ∅
               [preparing; preparing; preparing; refused; ok "late"]).1
     = [21; 22; 23].
Proof.
  assert (H : Forall (fun x => still_preparing x = true)
                [preparing; preparing; preparing]) by by repeat constructor.
  split; [exact H|]. split; [reflexivity|].
  exact (make_request_sleep_schedule sample_client "u" ∅ ∅
           [preparing; preparing; preparing] refused [ok "late"] H eq_refl).
Defined.

Lemma sleep_interval_bounds_witness :
  0 <= 20 /\ sleep_interval 10 20 = 0 /\ 0 <= sleep_interval 10 20.
Proof.
  assert (H : 0 <= 20) by lia. split; [exact H|].
  destruct (sleep_interval_bounds 20 H) as (Hnn & _ & Hz).
  split; [by apply Hz | exact Hnn].
Defined.

Lemma make_request_trace_counts_witness :
  let out := _make_request sample_client "u" ∅ ∅ [preparing; forbidden; ok "x"] in
  out.2 <> Polling
  /\ length (dispatched out) = S (length (sleeps out.1))
  /\ (length (dispatched out) <= 3)%nat.
Proof.
  intros out.
  assert (H : out.2 <> Polling) by (vm_compute; discriminate).
  destruct (make_request_trace_counts sample_client "u" ∅ ∅
              [preparing; forbidden; ok "x"]) as (Hle & _ & Hend).
  split; [exact H|]. split; [by apply Hend | exact Hle].
Defined.

Lemma make_request_ignores_later_replies_witness :
  (_make_request sample_client "u" ∅ ∅ [preparing; ok "x"]).2 <> Polling
  /\ _make_request sample_client "u" ∅ ∅ ([preparing; ok "x"] ++ [forbidden])
     = _make_request sample_client "u" ∅ ∅ [preparing; ok "x"].
Proof.
  assert (H : (_make_request sample_client "u" ∅ ∅ [preparing; ok "x"]).2
              <> Polling) by (vm_compute; discriminate).
  split; [exact H|].
  exact (make_request_ignores_later_replies sample_client "u" ∅ ∅
           [preparing; ok "x"] [forbidden] H).
Defined.

Lemma make_request_sends_what_it_is_given_witness :
  "X-Trace" <> "Authorization"
  /\ Forall (fun c =>
         call_headers c !! "Authorization" = Some "OAuth t0k3n"
         /\ call_headers c !! "X-Trace" = Some "1")
       (dispatched (_make_request sample_client "u" ∅
                      {[ "Authorization" := "Bearer other"; "X-Trace" := "1" ]}
                      [preparing; ok "x"])).
Proof.
  split; [done|].
  eapply Forall_impl;
    [exact (make_request_sends_what_it_is_given sample_client "u" ∅
              {[ "Authorization" := "Bearer other"; "X-Trace" := "1" ]}
              [preparing; ok "x"])|].
  intros c (_ & _ & _ & Hauth & Hother). split; [exact Hauth|].
  rewrite Hother by done. by vm_compute.
Defined.

Lemma export_requests_identical_witness :
  let sent := dispatched (sample_export "events" "42" None (Some sample_date)
                            (Some sample_until) ∅ [preparing; ok "x"]) in
  length sent = 2%nat
  /\ forall c1 c2, c1 ∈ sent -> c2 ∈ sent -> c1 = c2.
Proof.
  split; [by vm_compute|].
  exact (proj2 (export_requests_identical sample_events_fields
                  sample_installations_fields string sample_loads
                  sample_client "events" "42" None (Some sample_date)
                  (Some sample_until) ∅ [preparing; ok "x"])).
Defined.

Lemma export_passes_options_through_witness :
  ("limit" ∉ ["export_format"; "cache_control"; "accept_encoding";
              "application_id"; "fields"; "date_since"; "date_until"])
  /\ Forall (fun c => call_params c !! "limit" = Some "5")
       (dispatched (sample_export "events" "42" None (Some sample_date)
                      (Some sample_until)
                      {[ "limit" := "5"; "cache_control" := "no-cache" ]}
                      [ok "x"])).
Proof.
  assert (H : "limit" ∉ ["export_format"; "cache_control"; "accept_encoding";
                         "application_id"; "fields"; "date_since";
                         "date_until"]).
  { rewrite !not_elem_of_cons. split_and!; [done..|]. apply not_elem_of_nil. }
  split; [exact H|].
  exact (export_passes_options_through sample_events_fields
           sample_installations_fields string sample_loads sample_client
           "events" "42" None (Some sample_date) (Some sample_until)
           {[ "limit" := "5"; "cache_control" := "no-cache" ]} [ok "x"]
           "limit" H).
Defined.

Lemma export_application_id_witness :
  keyword_only {[ "limit" := "5" ]}
  /\ Forall (fun c => call_params c !! "application_id" = Some "42")
       (dispatched (sample_export "installations" "42" None (Some sample_date)
                      (Some sample_until) {[ "limit" := "5" ]} [ok "x"])).
Proof.
  assert (H : keyword_only {[ "limit" := "5" ]})
    by (repeat constructor; by vm_compute).
  split; [exact H|].
  exact (export_application_id sample_events_fields
           sample_installations_fields string sample_loads sample_client
           "installations" "42" None (Some sample_date) (Some sample_until)
           {[ "limit" := "5" ]} [ok "x"] H).
Defined.

Lemma export_message_error_sends_nothing_witness :
  (sample_export "events" "42" None (Some sample_date) None ∅ [ok "x"]).2
  = Raised (date_range_required "events")
  /\ (sample_export "events" "42" None (Some sample_date) None ∅ [ok "x"]).1
     = [].
Proof.
  assert (H : (sample_export "events" "42" None (Some sample_date) None ∅
                 [ok "x"]).2 = Raised (date_range_required "events"))
    by by vm_compute.
  split; [exact H|].
  exact (proj1 (export_message_error_sends_nothing sample_events_fields
                  sample_installations_fields string sample_loads
                  sample_client "events" "42" None (Some sample_date) None ∅
                  [ok "x"] _ None H)).
Defined.

Lemma export_result_origin_witness :
  (sample_export "events" "42" None (Some sample_date) (Some sample_until) ∅
     [preparing; ok sample_csv]).2 = Returned (Text sample_csv)
  /\ exists r,
       Answered r ∈ [preparing; ok sample_csv] /\ status_code r = 200
       /\ ((default "csv" ((∅ : gmap string string) !! "export_format") = "csv"
            /\ (Text sample_csv : payload string) = Text (text r))
           \/ (default "csv" ((∅ : gmap string string) !! "export_format")
                 <> "csv"
               /\ exists doc,
                    sample_loads (text r) = Some doc
                    /\ Text sample_csv = Json doc)).
Proof.
  assert (H : (sample_export "events" "42" None (Some sample_date)
                 (Some sample_until) ∅ [preparing; ok sample_csv]).2
              = Returned (Text sample_csv)) by by vm_compute.
  split; [exact H|].
  exact (export_result_origin sample_events_fields sample_installations_fields
           string sample_loads sample_client "events" "42" None
           (Some sample_date) (Some sample_until) ∅
           [preparing; ok sample_csv] (Text sample_csv) H).
Defined.

Lemma export_empty_field_list_witness :
  is_Some (sample_registry !! "events")
  /\ keyword_only ∅
  /\ Forall (fun c => call_params c !! "fields" = Some "")
       (dispatched (sample_export "events" "42" (Some []) (Some sample_date)
                      (Some sample_until) ∅ [ok "x"]))
  /\ dispatched (sample_export "events" "42" (Some []) (Some sample_date)
                   (Some sample_until) ∅ [ok "x"]) <> [].
Proof.
  assert (Hreg : is_Some (sample_registry !! "events")) by by eexists; vm_compute.
  assert (Hkw : keyword_only ∅) by (repeat constructor; by vm_compute).
  split; [exact Hreg|]. split; [exact Hkw|]. split; [|by vm_compute].
  exact (export_empty_field_list sample_events_fields
           sample_installations_fields string sample_loads sample_client
           "events" "42" (Some sample_date) (Some sample_until) ∅ [ok "x"]
           Hreg Hkw).
Defined.

Lemma export_header_keys_witness :
  ("limit" ∉ ["Authorization"; "Cache-Control"; "Accept-Encoding"])
  /\ Forall (fun c => call_headers c !! "limit" = None)
       (dispatched (sample_export "events" "42" None (Some sample_date)
                      (Some sample_until)
                      {[ "limit" := "5"; "accept_encoding" := "gzip" ]}
                      [ok "x"])).
Proof.
  assert (H : "limit" ∉ ["Authorization"; "Cache-Control"; "Accept-Encoding"]).
  { rewrite !not_elem_of_cons. split_and!; [done..|]. apply not_elem_of_nil. }
  split; [exact H|].
  exact (export_header_keys sample_events_fields sample_installations_fields
           string sample_loads sample_client "events" "42" None
           (Some sample_date) (Some sample_until)
           {[ "limit" := "5"; "accept_encoding" := "gzip" ]} [ok "x"]
           "limit" H).
Defined.

Lemma export_contacts_server_iff_witness :
  (("installations" = "events" \/ "installations" = "installations")
   /\ is_Some (Some sample_date) /\ is_Some (Some sample_until))
  /\ dispatched (sample_export "installations" "42" None (Some sample_date)
                   (Some sample_until) ∅ [refused]) <> [].
Proof.
  assert (H : ("installations" = "events" \/ "installations" = "installations")
              /\ is_Some (Some sample_date) /\ is_Some (Some sample_until))
    by (split; [by right | by split; eexists]).
  split; [exact H|].
  exact (proj2 (export_contacts_server_iff sample_events_fields
                  sample_installations_fields string sample_loads
                  sample_client "installations" "42" None (Some sample_date)
                  (Some sample_until) ∅ refused []) H).
Defined.
